(** * Fills and configuration of pysystemtrade

    A shallow embedding of the fill computations of [sysobjects/fills.py]
    (the [Fill] dataclass, [ListOfFills], the position-series deriver, the
    simple-order resolvers, the list aggregator and the generic order
    extractor), with the properties its specification states about them,
    and of the [Config] class of [sysdata/config/configdata.py].

    Python values are modelled as follows.
    - A number (int or float) is its exact rational value, or [NaN].
      Comparisons of Python numbers are exact, so they are the comparisons
      of [Q]; every comparison with [NaN] is false, [!=] apart.  The
      subtraction of two floats rounds its exact result to the nearest
      float ([float64]).  Infinities are not modelled.
    - A [datetime] is an integer time stamp.
    - A call that can raise returns a [result]: [Return v] or [Raise e].
    - A [pandas.Series] is the list of its (label, value) entries, or the
      empty series that was made without an index. *)

From Stdlib Require Import List ZArith QArith Bool String Lia.
From Stdlib Require Import Permutation Sorted.
Import ListNotations.

Local Open Scope string_scope.
Local Open Scope list_scope.
Local Open Scope Z_scope.

(** ** Python base values *)

Module Py.

Inductive exception : Type :=
| Exception (msg : string)
| ValueError (msg : string)
| TypeError
| AttributeError
| IndexError.

Inductive result (A : Type) : Type :=
| Return (a : A)
| Raise (e : exception).

Arguments Return {A} a.
Arguments Raise {A} e.

Definition bind {A B : Type} (r : result A) (k : A -> result B) : result B :=
  match r with
  | Return a => k a
  | Raise e => Raise e
  end.

(** A list comprehension whose element expression can raise: the elements
    are evaluated left to right and the first exception ends it. *)
Fixpoint comprehension {A B : Type} (f : A -> result B) (l : list A)
  : result (list B) :=
  match l with
  | [] => Return []
  | a :: rest =>
      bind (f a) (fun b =>
      bind (comprehension f rest) (fun bs => Return (b :: bs)))
  end.

(** [l[0]] *)
Definition getitem0 {A : Type} (l : list A) : result A :=
  match l with
  | [] => Raise IndexError
  | a :: _ => Return a
  end.

Definition timestamp : Type := Z.

Inductive num : Type :=
| Num (q : Q)
| NaN.

Definition zero : num := Num 0.

(** [a == b] *)
Definition num_eqb (a b : num) : bool :=
  match a, b with
  | Num x, Num y => Qeq_bool x y
  | _, _ => false
  end.

(** [a != b] *)
Definition num_neb (a b : num) : bool := negb (num_eqb a b).

(** [a < b] *)
Definition num_ltb (a b : num) : bool :=
  match a, b with
  | Num x, Num y => negb (Qle_bool y x)
  | _, _ => false
  end.

(** [a > b] *)
Definition num_gtb (a b : num) : bool := num_ltb b a.

(** The whole part of the binary logarithm of [n / d], for positive [n]
    and [d]. *)
Definition log2_floor (n d : Z) : Z :=
  let k := Z.log2 n - Z.log2 d in
  if (if 0 <=? k then d * 2 ^ k <=? n else d <=? n * 2 ^ (- k))
  then k else k - 1.

(** [n / d] rounded to the nearest integer, a tie to the even one. *)
Definition round_half_even (n d : Z) : Z :=
  let q := n / d in
  match 2 * (n mod d) ?= d with
  | Lt => q
  | Gt => q + 1
  | Eq => if Z.even q then q else q + 1
  end.

(** The float nearest to a rational (IEEE 754 binary64, round to nearest,
    ties to even): 53 significant bits, and no bit below [2 ^ -1074].  A
    result beyond the range of the floats, where the machine gives an
    infinity, is not cut off. *)
Definition float64 (q : Q) : Q :=
  let n := Z.abs (Qnum q) in
  let d := Zpos (Qden q) in
  if n =? 0 then 0%Q
  else
    let u := Z.max (log2_floor n d - 52) (-1074) in
    let m := if 0 <=? u then round_half_even n (d * 2 ^ u)
             else round_half_even (n * 2 ^ (- u)) d in
    let m := Z.sgn (Qnum q) * m in
    Qred (if 0 <=? u then inject_Z (m * 2 ^ u)
          else Qmake m (Z.to_pos (2 ^ (- u)))).

Arguments float64 : simpl never.

(** [a - b] on floats *)
Definition num_sub (a b : num) : num :=
  match a, b with
  | Num x, Num y => Num (float64 (x - y))
  | _, _ => NaN
  end.

Definition isna (a : num) : bool :=
  match a with
  | NaN => true
  | Num _ => false
  end.

End Py.

Export Py.

Declare Scope py_scope.
Notation "x <- e ;; k" := (bind e (fun x => k))
  (at level 61, e at next level, right associativity) : py_scope.
Local Open Scope py_scope.

(** ** The [Fill] dataclass and the sentinels *)

Record Fill : Type := mkFill {
  date : timestamp;
  qty : num;
  price : num;
  includes_slippage : bool
}.

(** [Fill(date, qty, price)]: [includes_slippage] takes its default. *)
Definition Fill3 (date : timestamp) (qty price : num) : Fill :=
  mkFill date qty price false.

(** Modelled from the spec: [syscore.constants.named_object] and the two
    sentinels of [sysexecution.orders.named_order_objects] are imported by
    [fills.py] but are not among the sources.  The spec describes them as
    zero-attribute marker values, distinct from each other and from any
    Fill; [missing_order] is the spec's MissingFill and [not_filled] its
    NotFilled. *)
Inductive named_object : Type :=
| missing_order
| not_filled.

(** What a variable that is meant to hold a fill can hold. *)
Inductive object : Type :=
| FillObj (f : Fill)
| Named (n : named_object).

(** Modelled from the spec: the truth value of a sentinel.  A marker
    object without attributes defines neither [__bool__] nor [__len__],
    and Python's truth test of such an object is [True]. *)
Definition truth (n : named_object) : bool := true.

(** [a or b]: [a] when [a] is true, otherwise [b]. *)
Definition py_or (a b : named_object) : named_object :=
  if truth a then a else b.

(** [x is s], for a sentinel [s]: identity of objects.  A [Fill] instance
    is never one of the sentinel objects. *)
Definition is_ (x : object) (s : named_object) : bool :=
  match x, s with
  | Named missing_order, missing_order => true
  | Named not_filled, not_filled => true
  | _, _ => false
  end.

Definition is_not (x : object) (s : named_object) : bool := negb (is_ x s).

(** ** [ListOfFills] *)

(** [ListOfFills.__init__] *)
Definition ListOfFills (list_of_fills : list object) : list object :=
  filter (fun fill => is_not fill (py_or missing_order not_filled))
         list_of_fills.

(** ** The [pandas] operations used by [fills.py] *)

Module Pandas.

(** The entries of a series in storage order, each a label of the index
    with its value. *)
Definition Entries : Type := list (timestamp * num).

(** A series.  The index of [series_of entries] holds time stamps, also
    when there is no entry.  [empty_without_index] is the empty series that
    was made without an index ([pd.Series([], dtype=float)]): its default
    index holds no time stamps and cannot be compared with them. *)
Inductive Series : Type :=
| series_of (entries : Entries)
| empty_without_index.

Definition entries (s : Series) : list (timestamp * num) :=
  match s with
  | series_of entries => entries
  | empty_without_index => []
  end.

Coercion entries : Series >-> list.

Definition index (s : Entries) : list timestamp := map fst s.
Definition values (s : Entries) : list num := map snd s.

(** [s.diff()]: each value minus the value of the entry before it; the
    first entry has no predecessor and gets [NaN]. *)
Fixpoint diff_from (previous : num) (s : Entries) : Entries :=
  match s with
  | [] => []
  | (t, v) :: rest => (t, num_sub v previous) :: diff_from v rest
  end.

Definition diff (s : Entries) : Entries := diff_from NaN s.

(** [s[mask]] for a boolean mask computed value by value from [s]. *)
Definition select (keep : num -> bool) (s : Entries) : Entries :=
  filter (fun entry => keep (snd entry)) s.

Fixpoint is_strictly_increasing (l : list timestamp) : bool :=
  match l with
  | [] => true
  | t :: rest =>
      match rest with
      | [] => true
      | t' :: _ => (t <? t') && is_strictly_increasing rest
      end
  end.

Fixpoint is_strictly_decreasing (l : list timestamp) : bool :=
  match l with
  | [] => true
  | t :: rest =>
      match rest with
      | [] => true
      | t' :: _ => (t' <? t) && is_strictly_decreasing rest
      end
  end.

Fixpoint has_duplicates (l : list timestamp) : bool :=
  match l with
  | [] => false
  | t :: rest => existsb (Z.eqb t) rest || has_duplicates rest
  end.

(** The two indexes hold the same labels in the same order. *)
Fixpoint same_labels (l1 l2 : list timestamp) : bool :=
  match l1, l2 with
  | [], [] => true
  | t1 :: rest1, t2 :: rest2 => (t1 =? t2) && same_labels rest1 rest2
  | _, _ => false
  end.

(** Forward fill over an increasing index: the value of the last entry
    whose label is at or before [t]; [last] when there is none. *)
Fixpoint pad (s : Entries) (t : timestamp) (last : num) : num :=
  match s with
  | [] => last
  | (t', v) :: rest => if t' <=? t then pad rest t v else last
  end.

(** Forward fill over a decreasing index, which goes by the position in
    the index: the entry with the label [t] when there is one, and
    otherwise the entry before the place of [t], which has the least label
    above [t]; [last] when there is none. *)
Fixpoint pad_decreasing (s : Entries) (t : timestamp) (last : num) : num :=
  match s with
  | [] => last
  | (t', v) :: rest => if t <=? t' then pad_decreasing rest t v else last
  end.

(** The messages of the two errors of [reindex], in the words of
    pandas 2; no property depends on their wording. *)
Definition duplicate_labels : string :=
  "cannot reindex on an axis with duplicate labels".

Definition not_monotonic : string :=
  "index must be monotonic increasing or decreasing".

(** [s.reindex(new_index, method="ffill")], where [new_index] holds time
    stamps.  An index equal to [new_index] is left as it is.  Otherwise
    the index of [s] must have no label twice; nothing is looked up for an
    empty [new_index]; the labels of [s] must be comparable with time
    stamps; and the index of [s] must be in increasing or in decreasing
    order.  The result has one entry for each label of [new_index], in that
    order: over an increasing index the value of [s] at the last label at or
    before it, and [NaN] when [s] has no such label.  The fill goes by
    labels, so a [NaN] stored in [s] is taken as it is. *)
Definition reindex_ffill (s : Series) (new_index : list timestamp)
  : result Entries :=
  if same_labels (index s) new_index then Return (entries s)
  else if has_duplicates (index s) then Raise (ValueError duplicate_labels)
  else
    match new_index with
    | [] => Return []
    | _ :: _ =>
        match s with
        | empty_without_index => Raise TypeError
        | series_of entries =>
            if is_strictly_increasing (index entries) then
              Return (map (fun t => (t, pad entries t NaN)) new_index)
            else if is_strictly_decreasing (index entries) then
              Return (map (fun t => (t, pad_decreasing entries t NaN))
                          new_index)
            else Raise (ValueError not_monotonic)
        end
    end.

(** A frame with the two columns that [as_pd_df] builds, row by row. *)
Definition row : Type := timestamp * (num * num).

Record DataFrame : Type := mkDataFrame {
  columns : list string;
  rows : list row
}.

(** [pd.DataFrame(dict(a=la, b=lb), index=idx)] *)
Definition DataFrame_of_dict (a : string) (la : list num)
           (b : string) (lb : list num) (idx : list timestamp)
  : result DataFrame :=
  if (List.length la =? List.length idx)%nat && (List.length lb =? List.length idx)%nat
  then Return (mkDataFrame [a; b] (combine idx (combine la lb)))
  else Raise (ValueError "Length of values does not match length of index").

(** [df.sort_index()]: the rows by ascending label.  pandas sorts with a
    quicksort that is not stable, so which of two rows with the same label
    comes first is not fixed by their order; the sort of the rows is a
    parameter, and [sorts_by_label] below says what is known of it. *)
Definition sort_index (sort : list row -> list row) (df : DataFrame)
  : DataFrame :=
  mkDataFrame (columns df) (sort (rows df)).

(** A sort by label that keeps the rows of one label in their order. *)
Fixpoint insert_row (r : row) (sorted : list row) : list row :=
  match sorted with
  | [] => [r]
  | r' :: rest =>
      if fst r <=? fst r' then r :: sorted else r' :: insert_row r rest
  end.

Fixpoint sort_rows (l : list row) : list row :=
  match l with
  | [] => []
  | r :: rest => insert_row r (sort_rows rest)
  end.

End Pandas.

Export Pandas.

(** ** Attribute access on what a [ListOfFills] holds *)

(** A sentinel has none of the attributes of a [Fill]. *)
Definition getattr {A : Type} (field : Fill -> A) (x : object) : result A :=
  match x with
  | FillObj f => Return (field f)
  | Named _ => Raise AttributeError
  end.

Record dict_of_lists : Type := mkDict {
  qty_list : list num;
  price_list : list num;
  date_list : list timestamp
}.

(** [ListOfFills._as_dict_of_lists] *)
Definition _as_dict_of_lists (self : list object) : result dict_of_lists :=
  qty_list <- comprehension (getattr qty) self ;;
  price_list <- comprehension (getattr price) self ;;
  date_list <- comprehension (getattr date) self ;;
  Return (mkDict qty_list price_list date_list).

(** [ListOfFills.as_pd_df]: the date list is popped from the dictionary and
    becomes the index of the frame built from what is left.  [sort] is the
    sort that [sort_index] uses. *)
Definition as_pd_df (sort : list row -> list row) (self : list object)
  : result DataFrame :=
  self_as_dict <- _as_dict_of_lists self ;;
  let date_index := date_list self_as_dict in
  df <- DataFrame_of_dict "qty" (qty_list self_as_dict)
                          "price" (price_list self_as_dict) date_index ;;
  let df := sort_index sort df in
  Return df.

(** ** Fills from a position series *)

(** [_get_valid_trades_and_aligned_prices] *)
Definition _get_valid_trades_and_aligned_prices (positions price : Series)
  : result (Entries * Entries) :=
  let trades := diff positions in
  let trades_without_na := select (fun v => negb (isna v)) trades in
  let trades_without_zeros :=
    select (fun v => num_neb v zero) trades_without_na in
  prices_aligned_to_trades <-
    reindex_ffill price (index trades_without_zeros) ;;
  Return (trades_without_zeros, prices_aligned_to_trades).

(** [zip] of three lists. *)
Definition zip3 {A B C : Type} (la : list A) (lb : list B) (lc : list C)
  : list (A * B * C) :=
  combine (combine la lb) lc.

(** [_list_of_fills_from_position_series_and_prices] *)
Definition _list_of_fills_from_position_series_and_prices
           (positions price : Series) : result (list object) :=
  valid <- _get_valid_trades_and_aligned_prices positions price ;;
  let '(trades_without_zeros, prices_aligned_to_trades) := valid in
  let trades_as_list := values trades_without_zeros in
  let prices_as_list := values prices_aligned_to_trades in
  let dates_as_list := index prices_aligned_to_trades in
  let list_of_fills_as_list :=
    map (fun '(date, qty, price) => FillObj (Fill3 date qty price))
        (zip3 dates_as_list trades_as_list prices_as_list) in
  let list_of_fills := ListOfFills list_of_fills_as_list in
  Return list_of_fills.

(** [ListOfFills.from_position_series_and_prices] *)
Definition from_position_series_and_prices (positions price : Series)
  : result (list object) :=
  list_of_fills <-
    _list_of_fills_from_position_series_and_prices positions price ;;
  Return (ListOfFills list_of_fills).

(** ** Simple orders *)

(** Modelled from the spec: [sysobjects.orders.SimpleOrder] is imported by
    [fills.py] but is not among the sources.  The spec gives it a signed
    quantity, which may be zero, and either a market-order flag or a limit
    price: an order without a limit price is a market order.  Its variants
    are the zero order (quantity == 0), the market order and the limit
    order. *)
Record SimpleOrder : Type := mkSimpleOrder {
  quantity : num;
  limit_price : option num
}.

Definition is_zero_order (simple_order : SimpleOrder) : bool :=
  num_eqb (quantity simple_order) zero.

Definition is_market_order (simple_order : SimpleOrder) : bool :=
  match limit_price simple_order with
  | None => true
  | Some _ => false
  end.

(** [fill_from_simple_market_order] *)
Definition fill_from_simple_market_order (simple_order : SimpleOrder)
           (market_price : num) (fill_datetime : timestamp) : result object :=
  Return (FillObj (mkFill fill_datetime (quantity simple_order)
                          market_price false)).

(** [fill_from_simple_limit_order].  Comparing a limit price that is [None]
    with a number raises; [after_buy] is the code that follows the first
    [if] statement. *)
Definition fill_from_simple_limit_order (simple_order : SimpleOrder)
           (market_price : num) (fill_datetime : timestamp) : result object :=
  let limit_price := limit_price simple_order in
  let after_buy :=
    if num_ltb (quantity simple_order) zero then
      match limit_price with
      | None => Raise TypeError
      | Some limit =>
          if num_ltb limit market_price
          then Return (FillObj (mkFill fill_datetime (quantity simple_order)
                                       limit true))
          else Return (Named not_filled)
      end
    else Return (Named not_filled) in
  if num_gtb (quantity simple_order) zero then
    match limit_price with
    | None => Raise TypeError
    | Some limit =>
        if num_gtb limit market_price
        then Return (FillObj (mkFill fill_datetime (quantity simple_order)
                                     limit true))
        else after_buy
    end
  else after_buy.

(** [fill_from_simple_order] *)
Definition fill_from_simple_order (simple_order : SimpleOrder)
           (market_price : num) (fill_datetime : timestamp) : result object :=
  if is_zero_order simple_order then Return (Named not_filled)
  else if is_market_order simple_order then
    fill_from_simple_market_order simple_order market_price fill_datetime
  else
    fill_from_simple_limit_order simple_order market_price fill_datetime.

Definition more_than_one_fill : string :=
  "List of orders has produced more than one fill!".

(** [fill_list_of_simple_orders].  The text of the exception leaves out
    the two printed copies of the list of orders. *)
Definition fill_list_of_simple_orders (list_of_orders : list SimpleOrder)
           (fill_datetime : timestamp) (market_price : num) : result object :=
  list_of_fills <-
    comprehension
      (fun simple_order =>
         fill_from_simple_order simple_order market_price fill_datetime)
      list_of_orders ;;
  let list_of_fills := ListOfFills list_of_fills in
  match list_of_fills with
  | [] => Return (Named not_filled)
  | [fill] => Return fill
  | _ :: _ :: _ => Raise (Exception more_than_one_fill)
  end.

(** ** Orders of the execution stack *)

(** Modelled from the spec: [sysexecution.orders.base_orders.Order] is
    imported by [fills.py] but is not among the sources.  The spec gives it
    a trade vector (one signed quantity per leg), a filled-quantity vector,
    a filled price and a fill time stamp, the last two possibly absent. *)
Record Order : Type := mkOrder {
  trade : list num;
  fill : list num;
  filled_price : option num;
  fill_datetime : option timestamp
}.

(** Modelled from the spec: [Order.fill_equals_zero], the order's net fill
    is exactly zero: every entry of the filled-quantity vector is zero. *)
Definition fill_equals_zero (order : Order) : bool :=
  forallb (fun x => num_eqb x zero) (fill order).

Definition multi_leg : string := "Can't get fills from multi-leg orders".

(** [fill_from_order] *)
Definition fill_from_order (order : Order) : result object :=
  if negb (List.length (trade order) =? 1)%nat
  then Raise (Exception multi_leg)
  else if fill_equals_zero order then Return (Named missing_order)
  else
    let fill_price := filled_price order in
    let fill_datetime := fill_datetime order in
    fill_qty <- getitem0 (fill order) ;;
    match fill_price with
    | None => Return (Named missing_order)
    | Some fill_price =>
        match fill_datetime with
        | None => Return (Named missing_order)
        | Some fill_datetime =>
            Return (FillObj (Fill3 fill_datetime fill_qty fill_price))
        end
    end.

(** ** The properties in the words of the specification *)

Definition is_sentinel (x : object) : bool :=
  match x with
  | Named _ => true
  | FillObj _ => false
  end.

(** The trades of a position series: the entries of its first difference
    that are defined and not zero. *)
Definition is_trade (v : num) : bool := negb (isna v) && num_neb v zero.

Definition trades_of (positions : Entries) : Entries :=
  filter (fun entry => is_trade (snd entry)) (diff positions).

(** A price is available for a time stamp when the price series has a
    label at or before it. *)
Definition has_price_at_or_before (price : Entries) (t : timestamp) : bool :=
  existsb (fun entry => fst entry <=? t) price.

(** The count of the specification: the trades with an available price. *)
Definition fillable_trades (positions price : Series) : nat :=
  List.length
    (filter (fun entry => has_price_at_or_before price (fst entry))
            (trades_of positions)).

(** [p] is the price of the series at [t] when [t] is one of its labels,
    and otherwise at the latest label before [t]. *)
Definition last_known_price (price : Entries) (t : timestamp) (p : num)
  : Prop :=
  exists t', In (t', p) price /\ t' <= t
    /\ forall t'' p'', In (t'', p'') price -> t'' <= t -> t'' <= t'.

(** A series in the order of time: its index holds time stamps, each
    later than the one before. *)
Definition time_ordered (s : Series) : Prop :=
  match s with
  | series_of entries => is_strictly_increasing (index entries) = true
  | empty_without_index => False
  end.

(** The row of the tabular view that a fill gives. *)
Definition row_of_fill (f : Fill) : row := (date f, (qty f, price f)).

Definition by_label (r1 r2 : row) : Prop := fst r1 <= fst r2.

(** What is known of the sort of [sort_index]: it gives the same rows in
    ascending order of their labels, and leaves them as they are when they
    are in that order already. *)
Definition sorts_by_label (sort : list row -> list row) : Prop :=
  forall l,
    Permutation l (sort l)
    /\ StronglySorted by_label (sort l)
    /\ (Sorted by_label l -> sort l = l).

(** The fill that the deriver makes of a trade: the time stamp and the
    value of the trade, at the price filled forward to its time stamp. *)
Definition fill_of_trade (price : Entries) (trade : timestamp * num) : Fill :=
  Fill3 (fst trade) (snd trade) (pad price (fst trade) NaN).

(** The positions and prices of the first example of the specification. *)
Definition example_positions : Series :=
  series_of [(1, Num 0); (2, Num 0); (3, Num 5); (4, Num 5); (5, Num 3)].

Definition example_prices : Series :=
  series_of [(1, Num 10); (2, Num 11); (3, Num 12); (4, Num 13);
             (5, Num 14)].

(** A position taken before the first known price. *)
Definition early_positions : Series := series_of [(1, Num 0); (2, Num 5)].

Definition late_prices : Series := series_of [(3, Num 10)].

(** * The [Config] class of [sysdata/config/configdata.py]

    An instance is modelled by its attribute dictionary.  The attribute
    [_elements], the list of element names that the class keeps, is held
    apart from the other attributes, as a list of strings.

    The value of an attribute is modelled by its content.  In Python the
    property [elements] hands out the list object that the class appends
    to, so an attribute that holds this very list (after
    [c.foo = c.elements]) changes with the elements.  The embedding does
    not follow this sharing: what an assignment to an instance leaves of
    the values of its attributes is stated for values that hold no list
    ([without_list]), which cannot share the list of elements.  A new
    instance makes its list of elements itself, so no value of the
    configuration it is made from shares it.

    What the embedding does not follow is marked by the outcome
    [Unmodelled]: an assignment to [_elements] from outside the class (its
    value could be any object, shared with other attributes), the names
    that Python's object machinery handles itself (those that start with
    two underscores), and reading a name that only the class defines.

    Dictionaries are association lists in insertion order, with string
    keys; a Python dictionary has no key twice. *)

Module ConfigData.

Definition RESERVED_NAMES : list string :=
  ["log"; "_elements"; "elements"; "_default_filename"; "_default_dict"].

(** The functions that the class defines: an attribute of the instance
    with one of these names hides the function. *)
Definition METHODS : list string :=
  ["add_elements"; "remove_element"; "add_single_element";
   "get_element_or_missing_data"; "get_element_or_arg_not_supplied";
   "_create_config_from_list"; "_create_config_from_item";
   "_create_config_from_dict"; "system_init"; "fill_with_defaults";
   "_default_config_dict"; "_default_config_filename"; "as_dict"; "save"].

(** The marker objects of [syscore.objects], which is not among the
    sources: two distinct objects, compared by identity. *)
Inductive marker : Type :=
| arg_not_supplied
| missing_data.

Unset Elimination Schemes.

Inductive value : Type :=
| VNone
| VBool (b : bool)
| VNum (n : num)
| VStr (s : string)
| VList (l : list value)
| VDict (d : list (string * value))
| VMarker (m : marker)
| VLogger.

Set Elimination Schemes.

Definition dict : Type := list (string * value).

(** [name in l] *)
Definition contains (l : list string) (name : string) : bool :=
  existsb (String.eqb name) l.

(** [d.get(key)] *)
Fixpoint dict_get (d : dict) (key : string) : option value :=
  match d with
  | [] => None
  | (k, v) :: rest => if (k =? key)%string then Some v else dict_get rest key
  end.

(** [d[key] = v] *)
Fixpoint dict_set (d : dict) (key : string) (v : value) : dict :=
  match d with
  | [] => [(key, v)]
  | (k, v') :: rest =>
      if (k =? key)%string then (k, v) :: rest
      else (k, v') :: dict_set rest key v
  end.

(** [del d[key]], for a key of [d] *)
Definition dict_del (d : dict) (key : string) : dict :=
  filter (fun entry => negb (fst entry =? key)%string) d.

Definition dict_keys (d : dict) : list string := map fst d.

(** [l.remove(x)]: [l] without the first [x]; nothing when [x] is not in
    [l], where Python raises [ValueError]. *)
Fixpoint list_remove (l : list string) (x : string) : option (list string) :=
  match l with
  | [] => None
  | y :: rest =>
      if (y =? x)%string then Some rest
      else option_map (cons y) (list_remove rest x)
  end.

Fixpoint insert_name (name : string) (sorted : list string) : list string :=
  match sorted with
  | [] => [name]
  | name' :: rest =>
      if String.leb name name' then name :: sorted
      else name' :: insert_name name rest
  end.

(** [sorted(l)] and [l.sort()] for a list of strings. *)
Fixpoint sorted (l : list string) : list string :=
  match l with
  | [] => []
  | name :: rest => insert_name name (sorted rest)
  end.

Record Config : Type := mkConfig {
  attributes : dict;
  _elements : option (list string)
}.

(** The instance before [__init__] runs. *)
Definition new_instance : Config := mkConfig [] None.

Inductive outcome (A : Type) : Type :=
| Done (a : A)
| Failed (e : exception)
| TooDeep
| Unmodelled.

Arguments Done {A} a.
Arguments Failed {A} e.
Arguments TooDeep {A}.
Arguments Unmodelled {A}.

(** A method: from the instance to what the call gives and the instance
    it leaves, also when it raises.  [TooDeep] is Python's
    [RecursionError]. *)
Definition method (A : Type) : Type := Config -> outcome A * Config.

Definition ret {A : Type} (a : A) : method A := fun self => (Done a, self).

Definition raise {A : Type} (e : exception) : method A :=
  fun self => (Failed e, self).

Definition then_ {A B : Type} (m : method A) (k : A -> method B) : method B :=
  fun self =>
    match m self with
    | (Done a, self') => k a self'
    | (Failed e, self') => (Failed e, self')
    | (TooDeep, self') => (TooDeep, self')
    | (Unmodelled, self') => (Unmodelled, self')
    end.

Declare Scope method_scope.
Notation "m1 ;;; m2" := (then_ m1 (fun _ => m2))
  (at level 62, right associativity) : method_scope.
Local Open Scope method_scope.

(** A loop or comprehension over [l] whose body is a call on [self]. *)
Fixpoint for_each {A : Type} (body : A -> method unit) (l : list A)
  : method unit :=
  match l with
  | [] => ret tt
  | a :: rest => body a ;;; for_each body rest
  end.

(** [self.name(...)]: the attribute lookup finds an attribute of the
    instance before a function of the class, and the values that the
    instance holds cannot be called. *)
Definition call {A : Type} (name : string) (body : method A) : method A :=
  fun self =>
    match dict_get (attributes self) name with
    | None => body self
    | Some VLogger => (Unmodelled, self)
    | Some _ => (Failed TypeError, self)
    end.

Definition special (name : string) : bool := String.prefix "__" name.

(** The property [elements] *)
Definition elements (self : Config) : list string :=
  match _elements self with
  | Some names => names
  | None => []
  end.

(** [getattr(self, name, default)] *)
Definition getattr_default (name : string) (default : value) (self : Config)
  : outcome value :=
  if (name =? "elements")%string then
    Done (VList (map VStr (elements self)))
  else if (name =? "_elements")%string then
    match _elements self with
    | Some names => Done (VList (map VStr names))
    | None => Done default
    end
  else
    match dict_get (attributes self) name with
    | Some v => Done v
    | None =>
        if special name || contains METHODS name then Unmodelled
        else Done default
    end.

(** [object.__setattr__]: [elements] is a property without a setter.  What
    an assignment to [_elements] or to a name of Python's own stores is not
    followed: the outcome is [Unmodelled], and the state that comes with it
    says nothing of the instance. *)
Definition object_setattr (name : string) (v : value) : method unit :=
  fun self =>
    if (name =? "elements")%string then (Failed AttributeError, self)
    else if (name =? "_elements")%string || special name
         then (Unmodelled, self)
    else (Done tt, mkConfig (dict_set (attributes self) name v)
                            (_elements self)).

(** [object.__delattr__] *)
Definition object_delattr (name : string) : method unit :=
  fun self =>
    if (name =? "elements")%string then (Failed AttributeError, self)
    else if special name then (Unmodelled, self)
    else if (name =? "_elements")%string then
      match _elements self with
      | Some _ => (Done tt, mkConfig (attributes self) None)
      | None => (Failed AttributeError, self)
      end
    else
      match dict_get (attributes self) name with
      | Some _ => (Done tt, mkConfig (dict_del (attributes self) name)
                                     (_elements self))
      | None => (Failed AttributeError, self)
      end.

(** [add_single_element], with the assignment [self._elements = elements]
    as a parameter: the assignment runs [__setattr__], which calls
    [add_single_element] again.  [elements.append] changes the list of
    elements in place; here the list is held apart from the values of the
    attributes, and the new list is the old one with the name at its
    end. *)
Definition add_single_element_with
           (assign_elements : list string -> method unit)
           (element_name : string) : method unit :=
  if negb (contains RESERVED_NAMES element_name) then
    fun self =>
      let elements := elements self in
      if negb (contains elements element_name)
      then assign_elements (elements ++ [element_name]) self
      else (Done tt, self)
  else ret tt.

(** [self._elements = names] inside the class: [__setattr__] stores the
    list and calls [add_single_element] for the name [_elements]; that
    name is reserved, so the call assigns nothing. *)
Definition assign_elements (names : list string) : method unit :=
  (fun self => (Done tt, mkConfig (attributes self) (Some names))) ;;;
  call "add_single_element"
       (add_single_element_with (fun _ => ret tt) "_elements").

(** [Config.add_single_element] *)
Definition add_single_element (element_name : string) : method unit :=
  add_single_element_with assign_elements element_name.

(** [Config.add_elements] *)
Definition add_elements (new_elements : list string) : method unit :=
  for_each (fun element_name =>
              call "add_single_element" (add_single_element element_name))
           new_elements.

Definition not_in_list : string := "list.remove(x): x not in list".

(** [Config.remove_element] *)
Definition remove_element (element : string) : method unit :=
  fun self =>
    let current_elements := elements self in
    match list_remove current_elements element with
    | None => (Failed (ValueError not_in_list), self)
    | Some current_elements => assign_elements current_elements self
    end.

(** [Config.__setattr__] *)
Definition __setattr__ (element_name : string) (v : value) : method unit :=
  object_setattr element_name v ;;;
  call "add_single_element" (add_single_element element_name).

(** [Config.__delattr__] *)
Definition __delattr__ (element_name : string) : method unit :=
  object_delattr element_name ;;;
  call "remove_element" (remove_element element_name).

(** [Config.get_element_or_missing_data] *)
Definition get_element_or_missing_data (element_name : string)
           (self : Config) : outcome value :=
  getattr_default element_name (VMarker missing_data) self.

(** [Config.get_element_or_arg_not_supplied] *)
Definition get_element_or_arg_not_supplied (element_name : string)
           (self : Config) : outcome value :=
  getattr_default element_name (VMarker arg_not_supplied) self.

(** [Config._default_config_filename] *)
Definition _default_config_filename (self : Config) : outcome value :=
  getattr_default "_default_filename" (VMarker arg_not_supplied) self.

(** [Config.__repr__]: the list of elements is sorted in place. *)
Definition __repr__ : method string :=
  fun self =>
    let self' :=
      match _elements self with
      | Some names => mkConfig (attributes self) (Some (sorted names))
      | None => self
      end in
    (Done (String.append "Config with elements: "
                         (String.concat ", " (elements self'))),
     self').

(** [Config.as_dict] *)
Definition as_dict (self : Config) : outcome dict :=
  let element_names := sorted (elements self) in
  fold_left
    (fun self_as_dict element =>
       match self_as_dict with
       | Done d =>
           match getattr_default element (VStr "") self with
           | Done v => Done (dict_set d element v)
           | Failed e => Failed e
           | TooDeep => TooDeep
           | Unmodelled => Unmodelled
           end
       | other => other
       end)
    element_names (Done []).

Definition not_a_config : string :=
  "Can only create a config with a nested dict or the string of a 'yamable' filename, or a list comprising these things".

Section Environment.

(** What is outside the class: what loading the YAML file of a name gives
    ([get_filename_for_package], [open] and [yaml.load]), and whether the
    logger raises on a critical message. *)
Variable read_yaml : string -> result value.
Variable critical : string -> option exception.

(** [self.log.critical(error_msg)] *)
Definition log_critical (error_msg : string) : method unit :=
  fun self =>
    match dict_get (attributes self) "log" with
    | Some VLogger =>
        match critical error_msg with
        | None => (Done tt, self)
        | Some e => (Failed e, self)
        end
    | _ => (Failed AttributeError, self)
    end.

(** [Config._create_config_from_dict], with the call of
    [_create_config_from_item] for the base configuration as a parameter.
    Only a dictionary has [get] and [keys]. *)
Definition _create_config_from_dict_with
           (_create_config_from_item : value -> method unit)
           (config_object : value) : method unit :=
  match config_object with
  | VDict d =>
      let base_config := dict_get d "base_config" in
      match base_config with
      | None | Some VNone => ret tt
      | Some base_config =>
          call "_create_config_from_item"
               (_create_config_from_item base_config)
      end ;;;
      let attr_names := dict_keys d in
      for_each (fun keyname =>
                  match dict_get d keyname with
                  | Some v => __setattr__ keyname v
                  | None => raise (Exception "KeyError")
                  end)
               (dict_keys d) ;;;
      call "add_elements" (add_elements attr_names)
  | VLogger | VMarker _ => fun self => (Unmodelled, self)
  | _ => raise AttributeError
  end.

(** [Config._create_config_from_item]; [depth] is the number of nested
    calls that the recursion limit still allows. *)
Fixpoint _create_config_from_item (depth : nat) (config_item : value)
  : method unit :=
  match depth with
  | O => fun self => (TooDeep, self)
  | S depth =>
      match config_item with
      | VDict _ =>
          call "_create_config_from_dict"
               (_create_config_from_dict_with
                  (_create_config_from_item depth) config_item)
      | VStr filename =>
          match read_yaml filename with
          | Raise e => raise e
          | Return dict_to_parse =>
              call "_create_config_from_dict"
                   (_create_config_from_dict_with
                      (_create_config_from_item depth) dict_to_parse)
          end
      | _ => log_critical not_a_config
      end
  end.

(** [Config._create_config_from_dict] *)
Definition _create_config_from_dict (depth : nat) (config_object : value)
  : method unit :=
  _create_config_from_dict_with (_create_config_from_item depth)
                                config_object.

(** [Config._create_config_from_list] *)
Definition _create_config_from_list (depth : nat) (config_object : list value)
  : method unit :=
  for_each (fun config_item =>
              call "_create_config_from_item"
                   (_create_config_from_item depth config_item))
           config_object.

(** [Config.__init__] *)
Definition __init__ (depth : nat) (config_object default_filename : value)
  : method unit :=
  __setattr__ "log" VLogger ;;;
  __setattr__ "_default_filename" default_filename ;;;
  let config_object :=
    match config_object with
    | VMarker arg_not_supplied => VDict []
    | _ => config_object
    end in
  let config_list :=
    match config_object with
    | VList config_list => config_list
    | _ => [config_object]
    end in
  call "_create_config_from_list" (_create_config_from_list depth config_list).

End Environment.

(** ** Notions for the properties of [Config] *)

(** No attribute of the instance hides a function of the class. *)
Definition usable (self : Config) : Prop :=
  forall name, In name METHODS -> dict_get (attributes self) name = None.

(** A name that can be given to an element: none that the class or
    Python reserves. *)
Definition element_name (name : string) : Prop :=
  contains RESERVED_NAMES name = false
  /\ contains METHODS name = false
  /\ special name = false.

(** The elements are the names of attributes, each once, none reserved. *)
Definition elements_kept (self : Config) : Prop :=
  NoDup (elements self)
  /\ Forall (fun name => contains RESERVED_NAMES name = false) (elements self).

(** A name that can be assigned to from outside the class, with the
    methods left in reach. *)
Definition settable (name : string) : bool :=
  negb (name =? "elements")%string && negb (name =? "_elements")%string
  && negb (special name) && negb (contains METHODS name).

(** The instance with [name] among its elements. *)
Definition with_element (name : string) (self : Config) : Config :=
  if contains RESERVED_NAMES name || contains (elements self) name then self
  else mkConfig (attributes self) (Some (elements self ++ [name])).

(** A value that holds no list, also not inside a dictionary. *)
Fixpoint without_list (v : value) : bool :=
  match v with
  | VList _ => false
  | VDict d =>
      (fix all_without_list (d : list (string * value)) : bool :=
         match d with
         | [] => true
         | (_, v) :: rest => without_list v && all_without_list rest
         end) d
  | _ => true
  end.

(** No logger is in the place of a function of the class; what calling a
    logger does is not followed. *)
Definition no_logger_called (self : Config) : Prop :=
  forall name,
    In name METHODS -> dict_get (attributes self) name <> Some VLogger.

(** No attribute of the instance holds a list. *)
Definition attributes_without_list (self : Config) : Prop :=
  Forall (fun entry => without_list (snd entry) = true) (attributes self).

(** Every element is the name of an attribute. *)
Definition tracked (self : Config) : Prop :=
  forall name, In name (elements self) ->
               exists v, dict_get (attributes self) name = Some v.

Definition name_le (name1 name2 : string) : Prop :=
  String.leb name1 name2 = true.

(** The value that [as_dict] gives to the key [name]. *)
Definition attribute_or_empty (self : Config) (name : string) : value :=
  match dict_get (attributes self) name with
  | Some v => v
  | None => VStr ""
  end.

(** The list of elements after [name] is added, and after the names of
    [new] are added one by one. *)
Definition add_name (names : list string) (name : string) : list string :=
  if contains RESERVED_NAMES name || contains names name then names
  else names ++ [name].

Definition add_names (names new : list string) : list string :=
  fold_left add_name new names.

(** The instance when [__init__] has set the logger and the name of the
    defaults file, before it reads the configuration. *)
Definition initial (default_filename : value) : Config :=
  mkConfig [("log", VLogger); ("_default_filename", default_filename)] None.

(** A configuration dictionary whose keys can all be elements, each key
    once, and which names no base configuration. *)
Definition flat (d : dict) : Prop :=
  NoDup (dict_keys d)
  /\ Forall (fun key => settable key = true) (dict_keys d)
  /\ Forall (fun key => contains RESERVED_NAMES key = false) (dict_keys d)
  /\ dict_get d "base_config" = None.

(** A configuration item that is neither a dictionary nor the name of a
    file, nor a list of items. *)
Definition no_config (item : value) : Prop :=
  match item with
  | VDict _ | VStr _ | VList _ | VMarker arg_not_supplied => False
  | _ => True
  end.

(** The keys of [d] that are not keys of [base]. *)
Definition new_keys (base d : dict) : list string :=
  filter (fun key => negb (contains (dict_keys base) key)) (dict_keys d).

(** The configuration of the examples in the source, and surroundings
    without files, whose logger returns. *)
Definition example_config : dict :=
  [("parameters", VDict [("p1", VNum (Num 3)); ("p2", VNum (Num (46 # 10)))]);
   ("another_thing", VList [])].

Definition no_files (filename : string) : result value :=
  Raise (Exception "No such file").

Definition quiet_logger (message : string) : option exception := None.

(** A file that names itself as its base configuration. *)
Definition looping_file (filename : string) : result value :=
  Return (VDict [("base_config", VStr "looping.yaml"); ("forecast_cap", VNum (Num 22))]).

End ConfigData.

(** ** Further notions for the properties of [fills.py] *)

Definition is_fill (x : object) : bool := negb (is_sentinel x).

(** [sub] is [l] with some of its members left out. *)
Inductive subsequence {A : Type} : list A -> list A -> Prop :=
| subsequence_nil : subsequence [] []
| subsequence_keep x sub l :
    subsequence sub l -> subsequence (x :: sub) (x :: l)
| subsequence_drop x sub l :
    subsequence sub l -> subsequence sub (x :: l).

(** * Properties *)

(** ** Numbers *)

Lemma num_ltb_lt (x y : Q) : num_ltb (Num x) (Num y) = true <-> (x < y)%Q.
Proof.
  unfold num_ltb. rewrite negb_true_iff.
  split; intro H.
  - apply Qnot_le_lt. intro Hle. apply Qle_bool_iff in Hle. congruence.
  - destruct (Qle_bool y x) eqn:E; [|reflexivity].
    apply Qle_bool_iff in E. exfalso. exact (Qlt_not_le _ _ H E).
Qed.

Lemma num_eqb_eq (x y : Q) : num_eqb (Num x) (Num y) = true <-> (x == y)%Q.
Proof. apply Qeq_bool_iff. Qed.

Lemma num_ltb_gtb_exclusive (a b : num) :
  num_gtb a b = true -> num_ltb a b = false.
Proof.
  destruct a as [x|], b as [y|]; try discriminate.
  unfold num_gtb. intro H. apply num_ltb_lt in H.
  destruct (num_ltb (Num x) (Num y)) eqn:E; [|reflexivity].
  apply num_ltb_lt in E. exfalso. exact (Qlt_irrefl _ (Qlt_trans _ _ _ H E)).
Qed.

(** ** The constructor of [ListOfFills] *)

Lemma ListOfFills_unfold (l : list object) :
  ListOfFills l = filter (fun x => is_not x missing_order) l.
Proof. reflexivity. Qed.

(** Genuine fills pass the constructor. *)
Lemma ListOfFills_fills (fs : list Fill) :
  ListOfFills (map FillObj fs) = map FillObj fs.
Proof.
  rewrite ListOfFills_unfold.
  induction fs as [|f fs IH]; [reflexivity|].
  cbn [map filter is_not is_ negb]. now f_equal.
Qed.

(** Whatever is not [missing_order] passes it. *)
Lemma ListOfFills_without_missing (l : list object) :
  Forall (fun x => is_ x missing_order = false) l -> ListOfFills l = l.
Proof.
  rewrite ListOfFills_unfold.
  induction 1 as [|x l Hx _ IH]; [reflexivity|].
  cbn [filter]. unfold is_not at 1. rewrite Hx. cbn [negb]. now f_equal.
Qed.

(** The [missing_order] entries are removed. *)
Lemma ListOfFills_drops_missing (l : list object) :
  ~ In (Named missing_order) (ListOfFills l).
Proof.
  rewrite ListOfFills_unfold. intro H.
  apply filter_In in H. destruct H as [_ H]. discriminate H.
Qed.

(** One identity test cannot exclude two distinct objects: whichever
    operand [or] gives, a sentinel passes the filter. *)
Lemma py_or_is_an_operand (a b : named_object) :
  py_or a b = a \/ py_or a b = b.
Proof. unfold py_or. destruct (truth a); auto. Qed.

Lemma one_identity_test_keeps_a_sentinel (s : named_object) :
  exists x,
    is_sentinel x = true
    /\ In x (filter (fun fill => is_not fill s)
                    [Named missing_order; Named not_filled]).
Proof.
  destruct s.
  - exists (Named not_filled). split; [reflexivity|]. cbn. auto.
  - exists (Named missing_order). split; [reflexivity|]. cbn. auto.
Qed.

(** C1 (the code at the failing input): constructing a [ListOfFills] from
    a list that holds the [not_filled] sentinel keeps that entry, so the
    collection built is not free of sentinels.  In
    [fill is not (missing_order or not_filled)] the operand of [is not] is
    [missing_order] alone. *)
Theorem ListOfFills_keeps_not_filled (f : Fill) :
  ListOfFills [Named not_filled; FillObj f; Named missing_order]
    = [Named not_filled; FillObj f]
  /\ existsb is_sentinel
       (ListOfFills [Named not_filled; FillObj f; Named missing_order])
     = true.
Proof. split; reflexivity. Qed.

(** ** The order fill resolver *)

Section Resolver.

Variables (simple_order : SimpleOrder).
Variables (market_price : num) (fill_datetime : timestamp).

Let resolve := fill_from_simple_order simple_order market_price fill_datetime.

(** The resolver raises nothing and gives a [Fill] or [not_filled]. *)
Lemma fill_from_simple_order_cases :
  resolve = Return (Named not_filled)
  \/ exists f, resolve = Return (FillObj f).
Proof.
  subst resolve. unfold fill_from_simple_order.
  destruct (is_zero_order simple_order); [now left|].
  unfold is_market_order, fill_from_simple_market_order,
    fill_from_simple_limit_order.
  destruct (limit_price simple_order) as [limit|]; [|right; eauto].
  destruct (num_gtb (quantity simple_order) zero),
    (num_gtb limit market_price),
    (num_ltb (quantity simple_order) zero),
    (num_ltb limit market_price); eauto.
Qed.

Lemma fill_from_simple_order_not_missing :
  exists v, resolve = Return v /\ is_ v missing_order = false.
Proof.
  destruct fill_from_simple_order_cases as [H|[f H]];
    rewrite H; eexists; split; reflexivity.
Qed.

End Resolver.

(** C5: the resolver of one simple order returns (raising nothing) a
    [Fill] or [not_filled], never [missing_order]; a zero order gives
    [not_filled] whatever the market price; a market order gives the
    [Fill] of the order quantity at exactly the market price, with
    [includes_slippage] false. *)
Theorem fill_from_simple_order_contract
        (simple_order : SimpleOrder) (market_price : num)
        (fill_datetime : timestamp) :
  (exists v,
      fill_from_simple_order simple_order market_price fill_datetime
        = Return v
      /\ v <> Named missing_order
      /\ (v = Named not_filled \/ exists f, v = FillObj f))
  /\ (is_zero_order simple_order = true ->
      fill_from_simple_order simple_order market_price fill_datetime
        = Return (Named not_filled))
  /\ (is_zero_order simple_order = false ->
      is_market_order simple_order = true ->
      fill_from_simple_order simple_order market_price fill_datetime
        = Return (FillObj (mkFill fill_datetime (quantity simple_order)
                                  market_price false))).
Proof.
  repeat split.
  - destruct (fill_from_simple_order_cases simple_order market_price
                fill_datetime) as [H|[f H]]; rewrite H.
    + exists (Named not_filled). repeat split; [discriminate|now left].
    + exists (FillObj f). repeat split; [discriminate|right; eauto].
  - intro Hz. unfold fill_from_simple_order. now rewrite Hz.
  - intros Hz Hm. unfold fill_from_simple_order. now rewrite Hz, Hm.
Qed.

Lemma fill_from_simple_order_contract_witness :
  fill_from_simple_order (mkSimpleOrder (Num 0) (Some (Num 99))) (Num 100) 7
    = Return (Named not_filled)
  /\ fill_from_simple_order (mkSimpleOrder (Num 10) None) (Num 100) 7
     = Return (FillObj (mkFill 7 (Num 10) (Num 100) false)).
Proof.
  split.
  - apply (proj1 (proj2 (fill_from_simple_order_contract
                           (mkSimpleOrder (Num 0) (Some (Num 99)))
                           (Num 100) 7))).
    reflexivity.
  - apply (proj2 (proj2 (fill_from_simple_order_contract
                           (mkSimpleOrder (Num 10) None) (Num 100) 7)));
      reflexivity.
Defined.

(** ** Limit orders *)

Section LimitOrder.

Variables (simple_order : SimpleOrder) (limit : num).
Variables (market_price : num) (fill_datetime : timestamp).
Hypothesis has_limit : limit_price simple_order = Some limit.

Let resolve_limit :=
  fill_from_simple_limit_order simple_order market_price fill_datetime.
Let filled :=
  FillObj (mkFill fill_datetime (quantity simple_order) limit true).

Lemma limit_buy :
  num_gtb (quantity simple_order) zero = true ->
  resolve_limit
    = if num_gtb limit market_price
      then Return filled else Return (Named not_filled).
Proof.
  intro Hbuy. subst resolve_limit filled.
  unfold fill_from_simple_limit_order.
  rewrite has_limit, Hbuy, (num_ltb_gtb_exclusive _ _ Hbuy).
  reflexivity.
Qed.

Lemma limit_sell :
  num_ltb (quantity simple_order) zero = true ->
  resolve_limit
    = if num_ltb limit market_price
      then Return filled else Return (Named not_filled).
Proof.
  intro Hsell. subst resolve_limit filled.
  unfold fill_from_simple_limit_order.
  assert (Hnot_buy : num_gtb (quantity simple_order) zero = false)
    by (apply (num_ltb_gtb_exclusive zero); exact Hsell).
  rewrite has_limit, Hsell, Hnot_buy.
  reflexivity.
Qed.

Lemma limit_fill_is_at_limit (f : Fill) :
  resolve_limit = Return (FillObj f) ->
  f = mkFill fill_datetime (quantity simple_order) limit true.
Proof.
  subst resolve_limit. unfold fill_from_simple_limit_order.
  rewrite has_limit.
  destruct (num_gtb (quantity simple_order) zero),
    (num_gtb limit market_price),
    (num_ltb (quantity simple_order) zero),
    (num_ltb limit market_price); intro H; congruence.
Qed.

End LimitOrder.

(** C4: for a limit order with a quantity that is not zero, resolved
    against a market price: a buy gives a [Fill] exactly when the limit is
    above the market and a sell exactly when the limit is below it; such a
    [Fill] has the limit price as its price and [includes_slippage] true;
    when the prices do not cross the result is [not_filled]. *)
Theorem fill_from_simple_limit_order_crossing
        (simple_order : SimpleOrder) (limit market_price : num)
        (fill_datetime : timestamp) :
  limit_price simple_order = Some limit ->
  is_zero_order simple_order = false ->
  fill_from_simple_order simple_order market_price fill_datetime
    = fill_from_simple_limit_order simple_order market_price fill_datetime
  /\ (num_gtb (quantity simple_order) zero = true ->
      ((exists f,
           fill_from_simple_limit_order simple_order market_price
                                        fill_datetime
             = Return (FillObj f))
       <-> num_gtb limit market_price = true)
      /\ (num_gtb limit market_price = false ->
          fill_from_simple_limit_order simple_order market_price
                                       fill_datetime
            = Return (Named not_filled)))
  /\ (num_ltb (quantity simple_order) zero = true ->
      ((exists f,
           fill_from_simple_limit_order simple_order market_price
                                        fill_datetime
             = Return (FillObj f))
       <-> num_ltb limit market_price = true)
      /\ (num_ltb limit market_price = false ->
          fill_from_simple_limit_order simple_order market_price
                                       fill_datetime
            = Return (Named not_filled)))
  /\ (forall f,
         fill_from_simple_limit_order simple_order market_price
                                      fill_datetime
           = Return (FillObj f) ->
         price f = limit /\ includes_slippage f = true
         /\ qty f = quantity simple_order /\ date f = fill_datetime).
Proof.
  intros Hlimit Hnonzero. repeat apply conj.
  - unfold fill_from_simple_order, is_market_order.
    now rewrite Hnonzero, Hlimit.
  - intro Hbuy.
    rewrite (limit_buy _ _ market_price fill_datetime Hlimit Hbuy).
    destruct (num_gtb limit market_price); split.
    + split; [reflexivity|eauto].
    + discriminate.
    + split; [intros [f H]; discriminate H|discriminate].
    + reflexivity.
  - intro Hsell.
    rewrite (limit_sell _ _ market_price fill_datetime Hlimit Hsell).
    destruct (num_ltb limit market_price); split.
    + split; [reflexivity|eauto].
    + discriminate.
    + split; [intros [f H]; discriminate H|discriminate].
    + reflexivity.
  - intros f H.
    rewrite (limit_fill_is_at_limit _ _ _ _ Hlimit f H).
    repeat split.
Qed.

(** The second and third examples of the specification: a buy of 10 with
    limit 101 fills at 101 against a market at 100; with limit 99 it does
    not fill. *)
Lemma fill_from_simple_limit_order_crossing_witness :
  (exists f,
      fill_from_simple_limit_order
        (mkSimpleOrder (Num 10) (Some (Num 101))) (Num 100) 7
      = Return (FillObj f))
  /\ fill_from_simple_limit_order
       (mkSimpleOrder (Num 10) (Some (Num 99))) (Num 100) 7
     = Return (Named not_filled).
Proof.
  split.
  - apply (proj1 (proj2 (fill_from_simple_limit_order_crossing
                           (mkSimpleOrder (Num 10) (Some (Num 101)))
                           (Num 101) (Num 100) 7
                           eq_refl eq_refl)) eq_refl).
    reflexivity.
  - apply (proj1 (proj2 (fill_from_simple_limit_order_crossing
                           (mkSimpleOrder (Num 10) (Some (Num 99)))
                           (Num 99) (Num 100) 7
                           eq_refl eq_refl)) eq_refl).
    reflexivity.
Defined.

(** ** The aggregator over a list of simple orders *)

Lemma comprehension_resolver (list_of_orders : list SimpleOrder)
      (market_price : num) (fill_datetime : timestamp) :
  exists vs,
    comprehension
      (fun simple_order =>
         fill_from_simple_order simple_order market_price fill_datetime)
      list_of_orders = Return vs
    /\ List.length vs = List.length list_of_orders
    /\ Forall (fun v => is_ v missing_order = false) vs
    /\ Forall2 (fun simple_order v =>
                  fill_from_simple_order simple_order market_price
                                         fill_datetime = Return v)
               list_of_orders vs.
Proof.
  induction list_of_orders as [|o os [vs (Hvs & Hlen & Hall & Hrel)]].
  - exists []. repeat split; constructor.
  - destruct (fill_from_simple_order_not_missing o market_price fill_datetime)
      as [v [Hv Hnot]].
    exists (v :: vs). cbn [comprehension]. rewrite Hv, Hvs.
    repeat split; cbn; auto.
Qed.

(** X2: what the aggregator does: it branches on the number of orders. *)
Lemma fill_list_of_simple_orders_by_length
      (list_of_orders : list SimpleOrder)
      (fill_datetime : timestamp) (market_price : num) :
  fill_list_of_simple_orders list_of_orders fill_datetime market_price
  = match list_of_orders with
    | [] => Return (Named not_filled)
    | [simple_order] =>
        fill_from_simple_order simple_order market_price fill_datetime
    | _ :: _ :: _ => Raise (Exception more_than_one_fill)
    end.
Proof.
  unfold fill_list_of_simple_orders.
  destruct (comprehension_resolver list_of_orders market_price fill_datetime)
    as [vs (Hvs & Hlen & Hall & Hrel)].
  rewrite Hvs. cbn [bind].
  rewrite (ListOfFills_without_missing vs Hall).
  destruct Hrel as [|o v os vs' Hv Hrel]; [reflexivity|].
  destruct Hrel as [|o' v' os' vs'' Hv' Hrel]; [now rewrite Hv|reflexivity].
Qed.

(** C2 (the code at the failing input): two orders that both resolve to
    [not_filled] - two zero orders, or a limit buy below and a limit sell
    above the market - make the aggregator raise, although no order
    produced a fill.  The [not_filled] results are not removed by the
    constructor of [ListOfFills], so they are counted as fills. *)
Theorem fill_list_of_simple_orders_counts_not_filled
        (fill_datetime : timestamp) (market_price : num) :
  let zero_order := mkSimpleOrder (Num 0) None in
  let buy_below := mkSimpleOrder (Num 10) (Some (Num 99)) in
  let sell_above := mkSimpleOrder (Num (-10)) (Some (Num 101)) in
  fill_from_simple_order zero_order market_price fill_datetime
    = Return (Named not_filled)
  /\ fill_list_of_simple_orders [zero_order; zero_order]
                                fill_datetime market_price
     = Raise (Exception more_than_one_fill)
  /\ fill_from_simple_order buy_below (Num 100) fill_datetime
     = Return (Named not_filled)
  /\ fill_from_simple_order sell_above (Num 100) fill_datetime
     = Return (Named not_filled)
  /\ fill_list_of_simple_orders [buy_below; sell_above]
                                fill_datetime (Num 100)
     = Raise (Exception more_than_one_fill).
Proof. repeat split. Qed.

(** ** The extractor for orders of the execution stack *)

Lemma fill_not_zero_has_first (order : Order) :
  fill_equals_zero order = false ->
  exists fill_qty rest, fill order = fill_qty :: rest.
Proof.
  unfold fill_equals_zero.
  destruct (fill order) as [|fill_qty rest]; [discriminate|eauto].
Qed.

Lemma fill_from_order_single_leg (order : Order) :
  List.length (trade order) = 1%nat ->
  fill_from_order order
  = if fill_equals_zero order then Return (Named missing_order)
    else
      fill_qty <- getitem0 (fill order) ;;
      match filled_price order, fill_datetime order with
      | Some fill_price, Some fill_datetime =>
          Return (FillObj (Fill3 fill_datetime fill_qty fill_price))
      | _, _ => Return (Named missing_order)
      end.
Proof.
  intro Hone. unfold fill_from_order. rewrite Hone. cbn [Nat.eqb negb].
  destruct (fill_equals_zero order); [reflexivity|].
  destruct (getitem0 (fill order)); [|reflexivity]. cbn [bind].
  now destruct (filled_price order), (fill_datetime order).
Qed.

Lemma fill_from_order_multi_leg (order : Order) :
  List.length (trade order) <> 1%nat ->
  fill_from_order order = Raise (Exception multi_leg).
Proof.
  intro Hlegs. unfold fill_from_order.
  apply Nat.eqb_neq in Hlegs. now rewrite Hlegs.
Qed.

(** C6: the extractor checks in this order: a trade vector that does not
    have exactly one leg raises; otherwise a fill that equals zero gives
    [missing_order]; otherwise an absent filled price gives
    [missing_order]; otherwise an absent fill time stamp gives
    [missing_order]; otherwise the result is the [Fill] of the fill time
    stamp, the first filled quantity and the filled price, with
    [includes_slippage] false. *)
Theorem fill_from_order_checks (order : Order) :
  (List.length (trade order) <> 1%nat ->
   fill_from_order order = Raise (Exception multi_leg))
  /\ (List.length (trade order) = 1%nat ->
      (fill_equals_zero order = true ->
       fill_from_order order = Return (Named missing_order))
      /\ (fill_equals_zero order = false ->
          (filled_price order = None ->
           fill_from_order order = Return (Named missing_order))
          /\ (forall fill_price,
                 filled_price order = Some fill_price ->
                 (fill_datetime order = None ->
                  fill_from_order order = Return (Named missing_order))
                 /\ (forall fill_time,
                        fill_datetime order = Some fill_time ->
                        exists fill_qty rest,
                          fill order = fill_qty :: rest
                          /\ fill_from_order order
                             = Return (FillObj (mkFill fill_time fill_qty
                                                       fill_price false)))))).
Proof.
  split.
  - apply fill_from_order_multi_leg.
  - intro Hone. rewrite (fill_from_order_single_leg order Hone).
    split; [now intros ->|]. intro Hfilled. rewrite Hfilled.
    destruct (fill_not_zero_has_first order Hfilled)
      as (fill_qty & rest & Hfill).
    rewrite Hfill. cbn [getitem0 bind].
    split; [now intros ->|]. intros fill_price ->.
    split; [now intros ->|]. intros fill_time ->.
    exists fill_qty, rest. split; reflexivity.
Qed.

(** The fifth and sixth examples of the specification, and a filled
    order. *)
Lemma fill_from_order_checks_witness :
  fill_from_order (mkOrder [Num 5; Num 5] [Num 5; Num 5] (Some (Num 12))
                           (Some 7))
    = Raise (Exception multi_leg)
  /\ fill_from_order (mkOrder [Num 5] [Num 5] None (Some 7))
     = Return (Named missing_order)
  /\ exists fill_qty rest,
       [Num 5] = fill_qty :: rest
       /\ fill_from_order (mkOrder [Num 5] [Num 5] (Some (Num 12)) (Some 7))
          = Return (FillObj (mkFill 7 fill_qty (Num 12) false)).
Proof.
  repeat apply conj.
  - apply (proj1 (fill_from_order_checks
                    (mkOrder [Num 5; Num 5] [Num 5; Num 5] (Some (Num 12))
                             (Some 7)))).
    discriminate.
  - apply (proj1 (proj2 (proj2 (fill_from_order_checks
                                  (mkOrder [Num 5] [Num 5] None (Some 7)))
                               eq_refl) eq_refl) eq_refl).
  - apply (proj2 (proj2 (proj2 (proj2 (fill_from_order_checks
                                         (mkOrder [Num 5] [Num 5]
                                                  (Some (Num 12)) (Some 7)))
                                      eq_refl) eq_refl)
                        (Num 12) eq_refl) 7 eq_refl).
Defined.

(** C10: the extractor looks at the length of the trade vector only.  The
    quantity of a [Fill] it returns is the first entry of the
    filled-quantity vector, whatever the length of that vector and
    whatever the single entry of the trade vector is; so an order for 5
    of which 3 are filled gives a [Fill] of 3. *)
Theorem fill_from_order_quantity_is_first_fill :
  (forall order f,
      fill_from_order order = Return (FillObj f) ->
      List.length (trade order) = 1%nat
      /\ exists rest, fill order = qty f :: rest)
  /\ (forall traded fill_qty rest fill_price fill_time,
         fill_equals_zero (mkOrder [traded] (fill_qty :: rest)
                                   (Some fill_price) (Some fill_time))
           = false ->
         fill_from_order (mkOrder [traded] (fill_qty :: rest)
                                  (Some fill_price) (Some fill_time))
           = Return (FillObj (mkFill fill_time fill_qty fill_price false)))
  /\ fill_from_order (mkOrder [Num 5] [Num 3] (Some (Num 12)) (Some 7))
     = Return (FillObj (mkFill 7 (Num 3) (Num 12) false))
  /\ fill_from_order (mkOrder [Num 5] [Num 3; Num 4] (Some (Num 12)) (Some 7))
     = Return (FillObj (mkFill 7 (Num 3) (Num 12) false)).
Proof.
  repeat apply conj; [| |reflexivity|reflexivity].
  - intros order f H.
    destruct (Nat.eq_dec (List.length (trade order)) 1) as [Hone|Hlegs].
    + split; [exact Hone|].
      rewrite (fill_from_order_single_leg order Hone) in H.
      destruct (fill_equals_zero order); [discriminate H|].
      destruct (fill order) as [|fill_qty rest]; [discriminate H|].
      cbn [getitem0 bind] in H.
      destruct (filled_price order), (fill_datetime order);
        try discriminate H.
      injection H as <-. now exists rest.
    + rewrite (fill_from_order_multi_leg order Hlegs) in H.
      discriminate H.
  - intros traded fill_qty rest fill_price fill_time Hfilled.
    rewrite fill_from_order_single_leg by reflexivity.
    now rewrite Hfilled.
Qed.

Lemma fill_from_order_quantity_is_first_fill_witness :
  (List.length [Num 5] = 1%nat
   /\ exists rest, [Num 3; Num 4] = Num 3 :: rest)
  /\ fill_from_order (mkOrder [Num 5] [Num 3; Num 4] (Some (Num 12)) (Some 7))
     = Return (FillObj (mkFill 7 (Num 3) (Num 12) false)).
Proof.
  split.
  - apply (proj1 fill_from_order_quantity_is_first_fill
                 (mkOrder [Num 5] [Num 3; Num 4] (Some (Num 12)) (Some 7))
                 (mkFill 7 (Num 3) (Num 12) false)).
    reflexivity.
  - apply (proj1 (proj2 fill_from_order_quantity_is_first_fill)).
    reflexivity.
Defined.

(** ** The pandas operations *)

Lemma diff_from_index (previous : num) (s : Entries) :
  index (diff_from previous s) = index s.
Proof.
  revert previous.
  induction s as [|[t v] rest IH]; intro previous; [reflexivity|].
  cbn [diff_from index map fst]. f_equal. apply IH.
Qed.

(** The first difference, entry by entry: the first entry is undefined,
    and every later one is the value minus the value before it. *)
Lemma diff_entries (s : Entries) :
  index (diff s) = index s
  /\ (forall t v rest, s = (t, v) :: rest -> hd_error (diff s) = Some (t, NaN))
  /\ (forall before t0 v0 t v rest,
         s = before ++ (t0, v0) :: (t, v) :: rest ->
         nth_error (diff s) (S (List.length before))
           = Some (t, num_sub v v0)).
Proof.
  repeat apply conj.
  - apply diff_from_index.
  - intros t v rest ->. now destruct v.
  - unfold diff. generalize NaN as previous.
    intros previous before. revert previous s.
    induction before as [|[t' v'] before IH];
      intros previous s t0 v0 t v rest ->.
    + reflexivity.
    + cbn [app diff_from List.length nth_error].
      now apply (IH v' _ t0 v0 t v rest).
Qed.

(** The difference is a float: [2 ^ 53 + 1 - 0] is rounded to [2 ^ 53],
    and the difference of the floats nearest to 0.7 and to 0.1 to the
    float nearest to it. *)
Example diff_rounds :
  diff [(1, Num 0); (2, Num (inject_Z (2 ^ 53 + 1)))]
  = [(1, NaN); (2, Num (inject_Z (2 ^ 53)))]
  /\ diff [(1, Num (3602879701896397 # 36028797018963968));
           (2, Num (3152519739159347 # 4503599627370496))]
     = [(1, NaN); (2, Num (5404319552844595 # 9007199254740992))].
Proof. split; reflexivity. Qed.

Lemma select_twice (p q : num -> bool) (s : Entries) :
  select q (select p s) = filter (fun entry => p (snd entry) && q (snd entry)) s.
Proof.
  unfold select.
  induction s as [|e rest IH]; [reflexivity|].
  cbn [filter]. destruct (p (snd e)) eqn:Hp; cbn [filter andb].
  - destruct (q (snd e)); now rewrite IH.
  - exact IH.
Qed.

Lemma zip3_of_entries (s : Entries) (p : timestamp -> num) :
  zip3 (index (map (fun t => (t, p t)) (index s))) (values s)
       (values (map (fun t => (t, p t)) (index s)))
  = map (fun entry => (fst entry, snd entry, p (fst entry))) s.
Proof.
  unfold zip3, index, values.
  induction s as [|[t v] rest IH]; [reflexivity|].
  cbn. now f_equal.
Qed.

Lemma strictly_increasing_tail (t : timestamp) (l : list timestamp) :
  is_strictly_increasing (t :: l) = true ->
  is_strictly_increasing l = true /\ Forall (fun t' => t < t') l.
Proof.
  revert t.
  induction l as [|t' l IH]; intros t H.
  - split; [reflexivity|constructor].
  - cbn [is_strictly_increasing] in H.
    apply andb_true_iff in H. destruct H as [Hlt Hrest].
    apply Z.ltb_lt in Hlt.
    split; [exact Hrest|].
    constructor; [exact Hlt|].
    destruct (IH t' Hrest) as [_ Hall].
    eapply Forall_impl; [|exact Hall]. cbn. intros; lia.
Qed.

Lemma no_price_at_or_before (s : Entries) (t : timestamp) :
  has_price_at_or_before s t = false <->
  forall t' p, In (t', p) s -> t < t'.
Proof.
  unfold has_price_at_or_before. split.
  - intros H t' p Hin.
    destruct (Z.leb_spec t' t) as [Hle|Hlt]; [|exact Hlt].
    exfalso.
    assert (E : existsb (fun entry => fst entry <=? t) s = true).
    { apply existsb_exists. exists (t', p). split; [exact Hin|].
      now apply Z.leb_le. }
    congruence.
  - intro H.
    destruct (existsb (fun entry => fst entry <=? t) s) eqn:E;
      [|reflexivity].
    apply existsb_exists in E. destruct E as [[t' p] [Hin Hle]].
    apply Z.leb_le in Hle. cbn in Hle. specialize (H t' p Hin). lia.
Qed.

(** The forward fill over an increasing index gives the last known
    price, and the starting value when no label is at or before [t]. *)
Lemma pad_increasing (s : Entries) (t : timestamp) (last : num) :
  is_strictly_increasing (index s) = true ->
  (last_known_price s t (pad s t last))
  \/ (has_price_at_or_before s t = false /\ pad s t last = last).
Proof.
  revert last.
  induction s as [|[t' v] rest IH]; intros last Hord.
  - right. split; reflexivity.
  - cbn [index map fst] in Hord.
    destruct (strictly_increasing_tail _ _ Hord) as [Hrest Hafter].
    cbn [pad]. destruct (Z.leb_spec t' t) as [Hle|Hlt].
    + left. destruct (IH v Hrest) as [(t1 & Hin & Hle1 & Hmax)|[Hnone ->]].
      * exists t1. split; [now right|]. split; [exact Hle1|].
        intros t2 p2 [Heq|Hin2] Hle2.
        -- injection Heq as <- <-.
           rewrite Forall_forall in Hafter.
           assert (t' < t1) by (apply Hafter; apply (in_map fst _ _ Hin)).
           lia.
        -- now apply (Hmax t2 p2).
      * exists t'. split; [now left|]. split; [exact Hle|].
        intros t2 p2 [Heq|Hin2] Hle2.
        -- injection Heq as <- <-. lia.
        -- apply no_price_at_or_before with (t' := t2) (p := p2) in Hnone;
             [lia|exact Hin2].
    + right. split; [|reflexivity].
      apply no_price_at_or_before. intros t2 p2 [Heq|Hin2].
      * injection Heq as <- <-. exact Hlt.
      * rewrite Forall_forall in Hafter.
        assert (t' < t2) by (apply Hafter; apply (in_map fst _ _ Hin2)).
        lia.
Qed.

Lemma time_ordered_entries (s : Series) :
  time_ordered s ->
  exists entries,
    s = series_of entries /\ is_strictly_increasing (index entries) = true.
Proof. destruct s as [entries|]; [eauto|intros []]. Qed.

Lemma pad_last_known (s : Series) (t : timestamp) (last : num) :
  time_ordered s ->
  (last_known_price s t (pad s t last))
  \/ (has_price_at_or_before s t = false /\ pad s t last = last).
Proof.
  intro Hord. destruct (time_ordered_entries s Hord) as (entries & -> & Hinc).
  now apply pad_increasing.
Qed.

Lemma increasing_without_duplicates (l : list timestamp) :
  is_strictly_increasing l = true -> has_duplicates l = false.
Proof.
  induction l as [|t l IH]; [reflexivity|]. intro Hinc.
  destruct (strictly_increasing_tail t l Hinc) as [Hrest Hafter].
  cbn [has_duplicates]. rewrite (IH Hrest), orb_false_r.
  destruct (existsb (Z.eqb t) l) eqn:E; [|reflexivity].
  apply existsb_exists in E. destruct E as [t' [Hin Heq]].
  apply Z.eqb_eq in Heq. subst t'.
  rewrite Forall_forall in Hafter. specialize (Hafter t Hin). lia.
Qed.

Lemma same_labels_eq (l1 l2 : list timestamp) :
  same_labels l1 l2 = true -> l1 = l2.
Proof.
  revert l2. induction l1 as [|t1 l1 IH]; intros [|t2 l2];
    cbn [same_labels]; try discriminate; [reflexivity|].
  intro H. apply andb_true_iff in H. destruct H as [Ht Hrest].
  apply Z.eqb_eq in Ht. now rewrite Ht, (IH l2 Hrest).
Qed.

(** The forward fill at a time stamp before every label gives the
    starting value. *)
Lemma pad_before (s : Entries) (t : timestamp) (last : num) :
  Forall (fun t' => t < t') (index s) -> pad s t last = last.
Proof.
  destruct s as [|[t' v] rest]; [reflexivity|].
  intro Hafter. inversion Hafter as [|? ? Hlt _]; subst. cbn [pad].
  destruct (Z.leb_spec t' t) as [Hle|_]; [lia|reflexivity].
Qed.

(** The forward fill at a label of an increasing index gives the value
    at that label. *)
Lemma pad_own_label (s : Entries) (t : timestamp) (v last : num) :
  is_strictly_increasing (index s) = true ->
  In (t, v) s ->
  pad s t last = v.
Proof.
  revert last.
  induction s as [|[t0 v0] rest IH]; intros last Hinc Hin; [destruct Hin|].
  cbn [index map fst] in Hinc.
  destruct (strictly_increasing_tail _ _ Hinc) as [Hrest Hafter].
  cbn [pad]. destruct Hin as [Heq|Hin].
  - injection Heq as -> ->. rewrite Z.leb_refl. now apply pad_before.
  - rewrite Forall_forall in Hafter.
    assert (Hlt : t0 < t) by (apply Hafter; apply (in_map fst _ _ Hin)).
    destruct (Z.leb_spec t0 t) as [_|Hgt]; [|lia]. now apply IH.
Qed.

Lemma pad_own_index (s part : Entries) :
  is_strictly_increasing (index s) = true ->
  incl part s ->
  map (fun t => (t, pad s t NaN)) (index part) = part.
Proof.
  intros Hinc.
  induction part as [|[t v] part IH]; intro Hincl; [reflexivity|].
  cbn [index map fst].
  rewrite (pad_own_label s t v NaN Hinc) by (apply Hincl; now left).
  f_equal. apply IH. intros x Hx. apply Hincl. now right.
Qed.

(** Over a time-ordered series, [reindex] gives for every label of the new
    index the value filled forward to it. *)
Lemma reindex_ffill_time_ordered (s : Series) (new_index : list timestamp) :
  time_ordered s ->
  reindex_ffill s new_index
  = Return (map (fun t => (t, pad s t NaN)) new_index).
Proof.
  intro Hord. destruct (time_ordered_entries s Hord) as (entries & -> & Hinc).
  unfold reindex_ffill. cbn [Pandas.entries].
  destruct (same_labels (index entries) new_index) eqn:Hsame.
  - apply same_labels_eq in Hsame. subst new_index.
    now rewrite (pad_own_index entries entries Hinc (incl_refl _)).
  - rewrite (increasing_without_duplicates _ Hinc), Hinc.
    now destruct new_index.
Qed.

(** Over a decreasing index the fill comes from the label above, over an
    index in no order [reindex] raises, and nothing is looked up for an
    empty new index. *)
Example reindex_ffill_out_of_order :
  reindex_ffill (series_of [(3, Num 10); (1, Num 12)]) [2]
  = Return [(2, Num 10)]
  /\ reindex_ffill (series_of [(3, Num 10); (1, Num 12); (2, Num 11)]) [2; 4]
     = Raise (ValueError not_monotonic)
  /\ reindex_ffill (series_of [(3, Num 10); (1, Num 12); (2, Num 11)]) []
     = Return []
  /\ reindex_ffill empty_without_index [2] = Raise TypeError.
Proof. repeat split. Qed.

(** ** Fills from a position series *)

Lemma trades_without_zeros_are_trades (positions : Entries) :
  select (fun v => num_neb v zero)
         (select (fun v => negb (isna v)) (diff positions))
  = trades_of positions.
Proof. now rewrite select_twice. Qed.

(** What the deriver makes of the prices that [reindex] has aligned. *)
Lemma from_position_series_and_prices_aligned
      (positions price : Series) (aligned : timestamp -> num) :
  reindex_ffill price (index (trades_of positions))
  = Return (map (fun t => (t, aligned t)) (index (trades_of positions))) ->
  from_position_series_and_prices positions price
  = Return (map (fun trade =>
                   FillObj (Fill3 (fst trade) (snd trade)
                                  (aligned (fst trade))))
                (trades_of positions)).
Proof.
  intro Haligned.
  unfold from_position_series_and_prices,
    _list_of_fills_from_position_series_and_prices,
    _get_valid_trades_and_aligned_prices.
  rewrite trades_without_zeros_are_trades, Haligned.
  cbn [bind].
  rewrite (zip3_of_entries (trades_of positions) aligned).
  match goal with
  | |- Return (ListOfFills (ListOfFills ?made)) = Return ?expected =>
      assert (E : made
                  = map FillObj
                        (map (fun trade =>
                                Fill3 (fst trade) (snd trade)
                                      (aligned (fst trade)))
                             (trades_of positions)))
        by (now rewrite !map_map);
      assert (E' : expected
                   = map FillObj
                         (map (fun trade =>
                                 Fill3 (fst trade) (snd trade)
                                       (aligned (fst trade)))
                              (trades_of positions)))
        by (now rewrite map_map)
  end.
  now rewrite E, E', !ListOfFills_fills.
Qed.

(** On a time-ordered price series the deriver raises nothing and makes
    one fill of every trade, in the order of the trades. *)
Lemma from_position_series_and_prices_returns (positions price : Series) :
  time_ordered price ->
  from_position_series_and_prices positions price
  = Return (map FillObj (map (fill_of_trade price) (trades_of positions))).
Proof.
  intro Hord.
  rewrite (from_position_series_and_prices_aligned
             positions price (fun t => pad price t NaN))
    by now apply reindex_ffill_time_ordered.
  now rewrite map_map.
Qed.

(** The first example of the specification. *)
Example from_position_series_and_prices_example :
  from_position_series_and_prices example_positions example_prices
  = Return [FillObj (mkFill 3 (Num 5) (Num 12) false);
            FillObj (mkFill 5 (Num (-2)) (Num 14) false)].
Proof. reflexivity. Qed.

(** C3 as stated fails: the trade at time 2 has no price at or before its
    time stamp, and the deriver still returns a fill for it. *)
Lemma fill_count_ignores_price_availability :
  exists fills,
    from_position_series_and_prices early_positions late_prices = Return fills
    /\ List.length fills = 1%nat
    /\ fillable_trades early_positions late_prices = 0%nat
    /\ List.length fills <> fillable_trades early_positions late_prices.
Proof.
  eexists. split; [reflexivity|]. repeat split. discriminate.
Qed.

(** C3, amended: on a time-ordered price series the number of fills
    returned by the deriver is the number of entries of the first
    difference of the positions that are defined and not zero, whether a
    price is available at or before the trade or not; it is the number of
    those with an available price when every trade has one. *)
Theorem from_position_series_and_prices_count (positions price : Series) :
  time_ordered price ->
  exists fills,
    from_position_series_and_prices positions price = Return fills
    /\ List.length fills = List.length (trades_of positions)
    /\ (fillable_trades positions price <= List.length fills)%nat
    /\ ((forall trade, In trade (trades_of positions) ->
                       has_price_at_or_before price (fst trade) = true) ->
        List.length fills = fillable_trades positions price).
Proof.
  intro Hord. eexists.
  split; [exact (from_position_series_and_prices_returns _ _ Hord)|].
  rewrite !length_map. unfold fillable_trades.
  generalize (trades_of positions) as trades.
  intro trades. repeat split.
  - induction trades as [|trade trades IH]; cbn [filter]; [constructor|].
    destruct (has_price_at_or_before price (fst trade)); cbn; lia.
  - induction trades as [|trade trades IH]; intro Hall; [reflexivity|].
    cbn [filter]. rewrite (Hall trade) by now left.
    cbn. f_equal. apply IH. intros; apply Hall; now right.
Qed.

Lemma from_position_series_and_prices_count_witness :
  exists fills,
    from_position_series_and_prices example_positions example_prices
      = Return fills
    /\ List.length fills = List.length (trades_of example_positions)
    /\ (fillable_trades example_positions example_prices
        <= List.length fills)%nat
    /\ ((forall trade, In trade (trades_of example_positions) ->
                       has_price_at_or_before example_prices (fst trade)
                       = true) ->
        List.length fills
        = fillable_trades example_positions example_prices).
Proof.
  apply (from_position_series_and_prices_count
           example_positions example_prices).
  reflexivity.
Defined.

(** C7 as stated fails: the fill of the trade at time 2 has an undefined
    price, which is not a price of the series at all. *)
Lemma fill_price_can_be_undefined :
  exists f,
    from_position_series_and_prices early_positions late_prices
      = Return [FillObj f]
    /\ date f = 2 /\ price f = NaN
    /\ ~ last_known_price late_prices (date f) (price f).
Proof.
  eexists. split; [reflexivity|]. repeat split.
  intros (t' & Hin & _). cbn in Hin.
  destruct Hin as [Hin|[]]. discriminate Hin.
Qed.

(** C7, amended: the fills the deriver returns on a time-ordered price
    series are, in order, those of the defined non-zero entries of the
    first difference of the positions: each has the time stamp and the
    value of its entry, [includes_slippage] false, and as its price the
    price of the series at that time stamp or else at the latest earlier
    label - never a later one - and the undefined price [NaN] when the
    series has no label at or before the time stamp. *)
Theorem from_position_series_and_prices_contents (positions prices : Series) :
  time_ordered prices ->
  exists fs,
    from_position_series_and_prices positions prices = Return (map FillObj fs)
    /\ map (fun f => (date f, qty f)) fs = trades_of positions
    /\ Forall (fun f =>
                 includes_slippage f = false
                 /\ (last_known_price prices (date f) (price f)
                     \/ (has_price_at_or_before prices (date f) = false
                         /\ price f = NaN))) fs.
Proof.
  intro Hord.
  exists (map (fill_of_trade prices) (trades_of positions)).
  split; [exact (from_position_series_and_prices_returns _ _ Hord)|].
  split.
  - rewrite map_map. cbn.
    induction (trades_of positions) as [|[t v] trades IH]; [reflexivity|].
    cbn. now f_equal.
  - apply Forall_forall. intros f Hin.
    apply in_map_iff in Hin. destruct Hin as [trade [<- _]].
    split; [reflexivity|].
    exact (pad_last_known prices (fst trade) NaN Hord).
Qed.

Lemma from_position_series_and_prices_contents_witness :
  exists fs,
    from_position_series_and_prices early_positions late_prices
      = Return (map FillObj fs)
    /\ map (fun f => (date f, qty f)) fs = trades_of early_positions
    /\ Forall (fun f =>
                 includes_slippage f = false
                 /\ (last_known_price late_prices (date f) (price f)
                     \/ (has_price_at_or_before late_prices (date f) = false
                         /\ price f = NaN))) fs.
Proof.
  apply (from_position_series_and_prices_contents early_positions late_prices).
  reflexivity.
Defined.

(** The deriver on an empty index of trades: nothing is looked up, but a
    price index with a label twice is refused all the same. *)
Lemma from_position_series_and_prices_without_trades
      (positions price : Series) :
  trades_of positions = [] ->
  has_duplicates (index price) = false ->
  from_position_series_and_prices positions price = Return [].
Proof.
  intros Hnone Hunique.
  rewrite (from_position_series_and_prices_aligned
             positions price (fun _ => NaN)); rewrite Hnone; [reflexivity|].
  unfold reindex_ffill. cbn [index map].
  destruct (entries price) as [|entry rest] eqn:Hentries.
  - reflexivity.
  - fold (index (entry :: rest)). cbn [index map same_labels] in *.
    now rewrite Hunique.
Qed.

(** C8 as stated fails: with an empty price series and positions that
    hold a trade, the deriver returns a collection that is not empty. *)
Lemma empty_prices_give_fills :
  exists fills,
    from_position_series_and_prices early_positions (series_of [])
    = Return fills
    /\ fills = [FillObj (mkFill 2 (Num 5) NaN false)]
    /\ fills <> [].
Proof.
  eexists. split; [reflexivity|]. split; [reflexivity|discriminate].
Qed.

(** C8, amended: on an empty position series the deriver raises nothing
    and returns the empty collection, whatever the order of the price
    series, when the price index has no label twice.  On an empty price
    series with an index of time stamps it raises nothing and returns one
    fill with an undefined price for every defined non-zero entry of the
    first difference of the positions, so the empty collection only when
    there is no such entry.  On an empty price series that was made
    without an index it returns the empty collection when there is no such
    entry, and raises [TypeError] when there is one. *)
Theorem from_position_series_and_prices_empty_inputs :
  (forall price : Series,
      has_duplicates (index price) = false ->
      from_position_series_and_prices (series_of []) price = Return []
      /\ from_position_series_and_prices empty_without_index price
         = Return [])
  /\ (forall positions : Series,
         from_position_series_and_prices positions (series_of [])
         = Return (map (fun trade =>
                          FillObj (mkFill (fst trade) (snd trade) NaN false))
                       (trades_of positions)))
  /\ (forall positions : Series,
         from_position_series_and_prices positions empty_without_index
         = match trades_of positions with
           | [] => Return []
           | _ :: _ => Raise TypeError
           end).
Proof.
  repeat apply conj.
  - intros price Hunique.
    split; now apply from_position_series_and_prices_without_trades.
  - intro positions.
    rewrite (from_position_series_and_prices_returns
               positions (series_of []) eq_refl).
    now rewrite map_map.
  - intro positions.
    destruct (trades_of positions) as [|trade trades] eqn:Htrades.
    + now apply from_position_series_and_prices_without_trades.
    + unfold from_position_series_and_prices,
        _list_of_fills_from_position_series_and_prices,
        _get_valid_trades_and_aligned_prices.
      now rewrite trades_without_zeros_are_trades, Htrades.
Qed.

Lemma from_position_series_and_prices_empty_inputs_witness :
  from_position_series_and_prices
    (series_of []) (series_of [(3, Num 10); (1, Num 12); (2, Num 11)])
  = Return []
  /\ from_position_series_and_prices
       empty_without_index
       (series_of [(3, Num 10); (1, Num 12); (2, Num 11)])
     = Return [].
Proof.
  apply (proj1 from_position_series_and_prices_empty_inputs
               (series_of [(3, Num 10); (1, Num 12); (2, Num 11)])).
  reflexivity.
Defined.

(** ** The tabular view *)

Lemma insert_row_perm (r : row) (l : list row) :
  Permutation (r :: l) (insert_row r l).
Proof.
  induction l as [|r' l IH]; cbn [insert_row]; [reflexivity|].
  destruct (fst r <=? fst r'); [reflexivity|].
  rewrite perm_swap. now apply perm_skip.
Qed.

Lemma sort_rows_perm (l : list row) : Permutation l (sort_rows l).
Proof.
  induction l as [|r l IH]; cbn [sort_rows]; [constructor|].
  rewrite <- insert_row_perm. now apply perm_skip.
Qed.

Lemma insert_row_hd (r r0 : row) (l : list row) :
  by_label r0 r -> HdRel by_label r0 l -> HdRel by_label r0 (insert_row r l).
Proof.
  intros Hr Hl. destruct l as [|r' l]; cbn [insert_row].
  - now constructor.
  - destruct (fst r <=? fst r'); constructor;
      [exact Hr|now inversion Hl].
Qed.

Lemma insert_row_sorted (r : row) (l : list row) :
  Sorted by_label l -> Sorted by_label (insert_row r l).
Proof.
  induction 1 as [|r' l Hsorted IH Hhd]; cbn [insert_row].
  - repeat constructor.
  - destruct (Z.leb_spec (fst r) (fst r')) as [Hle|Hlt].
    + repeat constructor; assumption.
    + constructor; [exact IH|].
      apply insert_row_hd; [|exact Hhd]. unfold by_label. lia.
Qed.

Lemma sort_rows_sorted (l : list row) : Sorted by_label (sort_rows l).
Proof.
  induction l as [|r l IH]; cbn [sort_rows]; [constructor|].
  now apply insert_row_sorted.
Qed.

Lemma sort_rows_strongly_sorted (l : list row) :
  StronglySorted by_label (sort_rows l).
Proof.
  apply Sorted_StronglySorted; [|apply sort_rows_sorted].
  intros r1 r2 r3. unfold by_label. lia.
Qed.

Lemma insert_row_first (r : row) (l : list row) :
  HdRel by_label r l -> insert_row r l = r :: l.
Proof.
  intro H. destruct l as [|r' l]; [reflexivity|].
  cbn [insert_row]. inversion H as [|? ? Hle]; subst.
  unfold by_label in Hle. apply Z.leb_le in Hle. now rewrite Hle.
Qed.

Lemma sort_rows_of_sorted (l : list row) :
  Sorted by_label l -> sort_rows l = l.
Proof.
  induction 1 as [|r l Hsorted IH Hhd]; [reflexivity|].
  cbn [sort_rows]. rewrite IH. now apply insert_row_first.
Qed.

(** There is a sort as [sort_index] needs one. *)
Lemma sort_rows_sorts_by_label : sorts_by_label sort_rows.
Proof.
  intro l. split; [apply sort_rows_perm|].
  split; [apply sort_rows_strongly_sorted|apply sort_rows_of_sorted].
Qed.

Lemma comprehension_getattr {A : Type} (field : Fill -> A) (fs : list Fill) :
  comprehension (getattr field) (map FillObj fs) = Return (map field fs).
Proof.
  induction fs as [|f fs IH]; [reflexivity|].
  cbn [map comprehension getattr bind]. now rewrite IH.
Qed.

Lemma combine_fields (fs : list Fill) :
  combine (map date fs) (combine (map qty fs) (map price fs))
  = map row_of_fill fs.
Proof.
  induction fs as [|f fs IH]; [reflexivity|].
  cbn [map combine]. now rewrite IH.
Qed.

(** The view of a collection of genuine fills, before the proof of its
    properties: the rows of the fills, sorted. *)
Lemma as_pd_df_of_fills (sort : list row -> list row) (fs : list Fill) :
  as_pd_df sort (map FillObj fs)
  = Return (mkDataFrame ["qty"; "price"] (sort (map row_of_fill fs))).
Proof.
  unfold as_pd_df, _as_dict_of_lists.
  rewrite !comprehension_getattr. cbn [bind qty_list price_list date_list].
  unfold DataFrame_of_dict. rewrite !length_map, Nat.eqb_refl.
  cbn [andb bind]. unfold sort_index. cbn [columns rows].
  now rewrite combine_fields.
Qed.

Lemma comprehension_getattr_sentinel {A : Type} (field : Fill -> A)
      (self : list object) :
  forallb is_fill self = false ->
  comprehension (getattr field) self = Raise AttributeError.
Proof.
  induction self as [|x self IH]; [discriminate|].
  destruct x as [f|n]; cbn [forallb is_fill is_sentinel negb andb];
    [|reflexivity].
  intro H. cbn [comprehension getattr bind]. now rewrite (IH H).
Qed.

(** A sentinel in a collection has no [qty], and the view raises. *)
Lemma as_pd_df_of_sentinel (sort : list row -> list row)
      (self : list object) :
  forallb is_fill self = false -> as_pd_df sort self = Raise AttributeError.
Proof.
  intro H. unfold as_pd_df, _as_dict_of_lists.
  now rewrite (comprehension_getattr_sentinel qty self H).
Qed.

Lemma all_fills (self : list object) :
  forallb is_fill self = true -> exists fs, self = map FillObj fs.
Proof.
  induction self as [|x self IH]; [now exists []|].
  destruct x as [f|n]; [|discriminate].
  cbn [forallb is_fill is_sentinel negb andb]. intro H.
  destruct (IH H) as [fs ->]. now exists (f :: fs).
Qed.

Lemma ListOfFills_with_not_filled (l : list object) :
  In (Named not_filled) l -> forallb is_fill (ListOfFills l) = false.
Proof.
  rewrite ListOfFills_unfold.
  induction l as [|x l IH]; [intros []|intros [Heq|Hin]].
  - subst x. reflexivity.
  - destruct x as [f|[|]]; cbn; [|now apply IH|reflexivity].
    now rewrite (IH Hin).
Qed.

(** X21: the view of a collection that the constructor builds from genuine
    fills only: a frame with the columns [qty] and [price], indexed by the
    dates of the fills, with exactly one row for each fill of the
    collection, the rows in ascending order of their dates. *)
Theorem as_pd_df_rows (sort : list row -> list row) (fs : list Fill) :
  sorts_by_label sort ->
  exists df,
    as_pd_df sort (ListOfFills (map FillObj fs)) = Return df
    /\ columns df = ["qty"; "price"]
    /\ Permutation (map row_of_fill fs) (rows df)
    /\ List.length (rows df) = List.length fs
    /\ StronglySorted by_label (rows df).
Proof.
  intro Hsort. destruct (Hsort (map row_of_fill fs)) as (Hperm & Hsorted & _).
  rewrite ListOfFills_fills, as_pd_df_of_fills.
  eexists. split; [reflexivity|]. cbn [columns rows].
  split; [reflexivity|].
  split; [exact Hperm|].
  split; [|exact Hsorted].
  rewrite <- (Permutation_length Hperm). apply length_map.
Qed.

Lemma as_pd_df_rows_witness :
  exists df,
    as_pd_df sort_rows
             (ListOfFills
                (map FillObj [mkFill 5 (Num (-2)) (Num 14) false;
                              mkFill 3 (Num 5) (Num 12) false]))
    = Return df
    /\ columns df = ["qty"; "price"]
    /\ Permutation (map row_of_fill [mkFill 5 (Num (-2)) (Num 14) false;
                                     mkFill 3 (Num 5) (Num 12) false])
                   (rows df)
    /\ List.length (rows df)
       = List.length [mkFill 5 (Num (-2)) (Num 14) false;
                      mkFill 3 (Num 5) (Num 12) false]
    /\ StronglySorted by_label (rows df).
Proof.
  apply (as_pd_df_rows sort_rows
                       [mkFill 5 (Num (-2)) (Num 14) false;
                        mkFill 3 (Num 5) (Num 12) false]).
  exact sort_rows_sorts_by_label.
Defined.

(** The view of any collection that the constructor builds from a list
    holding [not_filled] raises. *)
Lemma as_pd_df_raises_on_not_filled
      (sort : list row -> list row) (list_of_fills : list object) :
  In (Named not_filled) list_of_fills ->
  as_pd_df sort (ListOfFills list_of_fills) = Raise AttributeError.
Proof.
  intro Hin. now apply as_pd_df_of_sentinel, ListOfFills_with_not_filled.
Qed.

(** C9 (the code at the failing input): the collection that the constructor
    builds from a fill and [not_filled] still holds [not_filled], which has
    no [qty], and its tabular view is no table: [as_pd_df] raises
    [AttributeError], whatever the fill and whatever the sort of the rows.
    The constructor was to remove the sentinel: in
    [fill is not (missing_order or not_filled)] the operand of [is not] is
    [missing_order] alone. *)
Theorem as_pd_df_of_kept_not_filled
        (sort : list row -> list row) (f : Fill) :
  ListOfFills [FillObj f; Named not_filled] = [FillObj f; Named not_filled]
  /\ as_pd_df sort (ListOfFills [FillObj f; Named not_filled])
     = Raise AttributeError
  /\ as_pd_df sort (ListOfFills [Named not_filled]) = Raise AttributeError.
Proof. repeat split. Qed.

(** * Further properties of [fills.py] *)

(** ** The constructor of [ListOfFills] *)

(** X1: what the constructor does keep and remove: no [missing_order] is left,
    the fills of the input are all kept, in their order, and constructing
    again changes nothing. *)
Theorem ListOfFills_keeps_fills_in_order (l : list object) :
  ~ In (Named missing_order) (ListOfFills l)
  /\ filter is_fill (ListOfFills l) = filter is_fill l
  /\ ListOfFills (ListOfFills l) = ListOfFills l
  /\ subsequence (ListOfFills l) l.
Proof.
  split; [apply ListOfFills_drops_missing|].
  rewrite !ListOfFills_unfold.
  induction l as [|x l (IHfills & IHagain & IHsub)].
  - repeat split. constructor.
  - destruct x as [f|[|]]; cbn; cbn in IHfills, IHagain.
    + repeat split; [now f_equal|now f_equal|now constructor].
    + repeat split; [exact IHfills|exact IHagain|now constructor].
    + repeat split; [exact IHfills|now f_equal|now constructor].
Qed.

(** ** Limit resolution of an order without a limit price *)

(** X3: [fill_from_simple_limit_order] called on an order that has no limit
    price: comparing [None] with the market price raises [TypeError] as
    soon as the quantity is positive or negative; a quantity that is zero
    or undefined returns [not_filled] without any comparison. *)
Theorem fill_from_simple_limit_order_without_limit
        (simple_order : SimpleOrder) (market_price : num)
        (fill_datetime : timestamp) :
  limit_price simple_order = None ->
  fill_from_simple_limit_order simple_order market_price fill_datetime
  = if num_gtb (quantity simple_order) zero
       || num_ltb (quantity simple_order) zero
    then Raise TypeError
    else Return (Named not_filled).
Proof.
  intro Hnone. unfold fill_from_simple_limit_order. rewrite Hnone.
  now destruct (num_gtb (quantity simple_order) zero),
    (num_ltb (quantity simple_order) zero).
Qed.

Lemma fill_from_simple_limit_order_without_limit_witness :
  fill_from_simple_limit_order (mkSimpleOrder (Num 10) None) (Num 100) 7
  = Raise TypeError.
Proof.
  apply (fill_from_simple_limit_order_without_limit
           (mkSimpleOrder (Num 10) None) (Num 100) 7).
  reflexivity.
Defined.

(** ** The tabular view and the sentinels *)

(** X4: the view exists exactly for the collections without a sentinel.  For
    a collection of fills it is a frame with the columns [qty] and [price]
    whose rows are the rows of the fills, one for each, in ascending order
    of their dates; which of two rows of one date comes first is left to
    the sort.  A collection that holds a sentinel ([not_filled] can be left
    by the constructor) makes [as_pd_df] raise [AttributeError]. *)
Theorem as_pd_df_needs_fills
        (sort : list row -> list row) (self : list object) :
  sorts_by_label sort ->
  (forallb is_fill self = true ->
   exists fs df,
     self = map FillObj fs
     /\ as_pd_df sort self = Return df
     /\ columns df = ["qty"; "price"]
     /\ Permutation (map row_of_fill fs) (rows df)
     /\ StronglySorted by_label (rows df))
  /\ (forallb is_fill self = false ->
      as_pd_df sort self = Raise AttributeError).
Proof.
  intro Hsort. split.
  - intro H. destruct (all_fills self H) as [fs ->].
    destruct (Hsort (map row_of_fill fs)) as (Hperm & Hsorted & _).
    exists fs. eexists. split; [reflexivity|].
    split; [apply as_pd_df_of_fills|]. cbn [columns rows].
    repeat split; assumption.
  - apply as_pd_df_of_sentinel.
Qed.

Lemma as_pd_df_needs_fills_witness :
  as_pd_df sort_rows
           [FillObj (mkFill 3 (Num 5) (Num 12) false); Named not_filled]
  = Raise AttributeError.
Proof.
  apply (proj2 (as_pd_df_needs_fills
                  sort_rows
                  [FillObj (mkFill 3 (Num 5) (Num 12) false);
                   Named not_filled]
                  sort_rows_sorts_by_label)).
  reflexivity.
Defined.

(** X5: fills that are already in the order of their dates keep their order
    in the view, also those with equal dates. *)
Theorem as_pd_df_keeps_date_order
        (sort : list row -> list row) (fs : list Fill) :
  sorts_by_label sort ->
  Sorted (fun f1 f2 => date f1 <= date f2) fs ->
  as_pd_df sort (ListOfFills (map FillObj fs))
  = Return (mkDataFrame ["qty"; "price"] (map row_of_fill fs)).
Proof.
  intros Hsort Hsorted. rewrite ListOfFills_fills, as_pd_df_of_fills.
  destruct (Hsort (map row_of_fill fs)) as (_ & _ & Hkept).
  rewrite Hkept; [reflexivity|]. clear Hkept.
  induction Hsorted as [|f fs _ IH Hhd]; [constructor|].
  cbn [map]. constructor; [exact IH|].
  destruct Hhd; cbn [map]; now constructor.
Qed.

Lemma as_pd_df_keeps_date_order_witness :
  as_pd_df sort_rows
           (ListOfFills [FillObj (mkFill 3 (Num 5) (Num 12) false);
                         FillObj (mkFill 3 (Num 1) (Num 13) false);
                         FillObj (mkFill 5 (Num (-2)) (Num 14) false)])
  = Return (mkDataFrame ["qty"; "price"]
                        [(3, (Num 5, Num 12)); (3, (Num 1, Num 13));
                         (5, (Num (-2), Num 14))]).
Proof.
  apply (as_pd_df_keeps_date_order
           sort_rows
           [mkFill 3 (Num 5) (Num 12) false;
            mkFill 3 (Num 1) (Num 13) false;
            mkFill 5 (Num (-2)) (Num 14) false]
           sort_rows_sorts_by_label).
  repeat constructor; cbn; lia.
Defined.

(** ** Fills and the positions they come from *)

Lemma first_difference_is_no_trade (t : timestamp) (v : num) (s : Entries) :
  trades_of ((t, v) :: s)
  = filter (fun entry => is_trade (snd entry)) (diff_from v s).
Proof. unfold trades_of, diff. cbn. now destruct v. Qed.

Lemma subsequence_filter {A : Type} (keep : A -> bool) (l : list A) :
  subsequence (filter keep l) l.
Proof.
  induction l as [|x l IH]; cbn [filter]; [constructor|].
  destruct (keep x); now constructor.
Qed.

Lemma subsequence_map {A B : Type} (f : A -> B) (sub l : list A) :
  subsequence sub l -> subsequence (map f sub) (map f l).
Proof. induction 1; cbn [map]; now constructor. Qed.

Lemma subsequence_length {A : Type} (sub l : list A) :
  subsequence sub l -> (List.length sub <= List.length l)%nat.
Proof. induction 1; cbn [List.length]; lia. Qed.

Lemma trade_dates_follow_the_positions (positions : Entries) :
  subsequence (index (trades_of positions)) (tl (index positions)).
Proof.
  destruct positions as [|[t v] later]; [constructor|].
  rewrite first_difference_is_no_trade.
  change (tl (index ((t, v) :: later))) with (index later).
  rewrite <- (diff_from_index v later).
  apply subsequence_map, subsequence_filter.
Qed.

(** X7: the fills follow the position series: their dates are time stamps of
    the series other than its first, in the order of the series and at
    most once for each entry.  So a series without positions gives no
    fill, and any other series gives fewer fills than it has positions. *)
Theorem fills_follow_the_position_series (positions prices : Series) :
  time_ordered prices ->
  exists fs,
    from_position_series_and_prices positions prices = Return (map FillObj fs)
    /\ subsequence (map date fs) (tl (index positions))
    /\ (entries positions = [] -> fs = [])
    /\ (entries positions <> [] ->
        (List.length fs + 1 <= List.length (entries positions))%nat).
Proof.
  intro Hord. eexists.
  split; [exact (from_position_series_and_prices_returns _ _ Hord)|].
  assert (Hsub : subsequence
                   (map date (map (fill_of_trade prices)
                                  (trades_of positions)))
                   (tl (index positions))).
  { rewrite map_map.
    change (map (fun trade => date (fill_of_trade prices trade))
                (trades_of positions))
      with (index (trades_of positions)).
    apply trade_dates_follow_the_positions. }
  split; [exact Hsub|].
  split.
  - intros ->. reflexivity.
  - intro Hsome. apply subsequence_length in Hsub.
    rewrite !length_map in Hsub. rewrite length_map.
    destruct (entries positions) as [|entry later]; [now destruct Hsome|].
    cbn [tl index map List.length] in *.
    rewrite ?length_map in Hsub. lia.
Qed.

Lemma fills_follow_the_position_series_witness :
  exists fs,
    from_position_series_and_prices example_positions example_prices
      = Return (map FillObj fs)
    /\ subsequence (map date fs) (tl (index example_positions))
    /\ (entries example_positions = [] -> fs = [])
    /\ (entries example_positions <> [] ->
        (List.length fs + 1 <= List.length (entries example_positions))%nat).
Proof.
  apply (fills_follow_the_position_series example_positions example_prices).
  reflexivity.
Defined.

(** * Properties of the [Config] class *)

Import ConfigData.
Local Open Scope method_scope.

(** ** Dictionaries and lists of names *)

Lemma dict_get_set (d : dict) (key key' : string) (v : value) :
  dict_get (dict_set d key v) key'
  = if (key =? key')%string then Some v else dict_get d key'.
Proof.
  induction d as [|[k v'] d IH]; cbn [dict_set dict_get].
  - reflexivity.
  - destruct (String.eqb_spec k key) as [->|Hk]; cbn [dict_get].
    + now destruct (key =? key')%string.
    + rewrite IH. destruct (String.eqb_spec k key') as [->|Hk'];
        [|reflexivity].
      destruct (String.eqb_spec key key') as [->|]; congruence.
Qed.

Lemma dict_get_del (d : dict) (key key' : string) :
  dict_get (dict_del d key) key'
  = if (key =? key')%string then None else dict_get d key'.
Proof.
  unfold dict_del.
  induction d as [|[k v] d IH]; cbn [filter dict_get fst].
  - now destruct (key =? key')%string.
  - destruct (String.eqb_spec k key) as [->|Hk]; cbn [negb dict_get].
    + rewrite IH. now destruct (key =? key')%string.
    + rewrite IH. destruct (String.eqb_spec k key') as [->|Hk'];
        [|reflexivity].
      destruct (String.eqb_spec key key') as [->|]; congruence.
Qed.

Lemma contains_In (l : list string) (name : string) :
  contains l name = true <-> In name l.
Proof.
  unfold contains. rewrite existsb_exists. split.
  - intros [x [Hin Heq]]. apply String.eqb_eq in Heq. now subst.
  - intro Hin. exists name. split; [exact Hin|apply String.eqb_refl].
Qed.

Lemma contains_not_In (l : list string) (name : string) :
  contains l name = false <-> ~ In name l.
Proof.
  rewrite <- contains_In. now destruct (contains l name).
Qed.

Lemma list_remove_In (l : list string) (x : string) :
  In x l -> exists remaining, list_remove l x = Some remaining.
Proof.
  induction l as [|y l IH]; [intros []|].
  intros Hin. cbn [list_remove].
  destruct (String.eqb_spec y x) as [->|Hyx]; [eauto|].
  destruct IH as [remaining ->]; [destruct Hin; congruence|].
  cbn. eauto.
Qed.

Lemma list_remove_not_In (l : list string) (x : string) :
  ~ In x l -> list_remove l x = None.
Proof.
  induction l as [|y l IH]; [reflexivity|].
  intro Hnot. cbn [list_remove].
  destruct (String.eqb_spec y x) as [->|Hyx]; [exfalso; apply Hnot; now left|].
  rewrite IH; [reflexivity|]. intro H. apply Hnot. now right.
Qed.

Lemma list_remove_subsequence (l remaining : list string) (x : string) :
  list_remove l x = Some remaining -> subsequence remaining l.
Proof.
  revert remaining.
  induction l as [|y l IH]; intros remaining; [discriminate|].
  cbn [list_remove].
  destruct (y =? x)%string.
  - intros [= <-]. constructor. clear. induction l; now constructor.
  - destruct (list_remove l x) as [rest|]; [|discriminate].
    intros [= <-]. constructor. now apply IH.
Qed.

Lemma list_remove_last (l : list string) (x : string) :
  ~ In x l -> list_remove (l ++ [x]) x = Some l.
Proof.
  induction l as [|y l IH]; intro Hnot; cbn [app list_remove].
  - now rewrite String.eqb_refl.
  - destruct (String.eqb_spec y x) as [->|Hyx];
      [exfalso; apply Hnot; now left|].
    rewrite IH; [reflexivity|]. intro H. apply Hnot. now right.
Qed.

Lemma subsequence_In {A : Type} (sub l : list A) (x : A) :
  subsequence sub l -> In x sub -> In x l.
Proof.
  induction 1 as [|y sub l _ IH|y sub l _ IH]; intro Hin.
  - exact Hin.
  - destruct Hin as [->|Hin]; [now left|right; now apply IH].
  - right. now apply IH.
Qed.

Lemma subsequence_NoDup {A : Type} (sub l : list A) :
  subsequence sub l -> NoDup l -> NoDup sub.
Proof.
  induction 1 as [|y sub l Hsub IH|y sub l Hsub IH]; intro Hnodup.
  - exact Hnodup.
  - inversion Hnodup as [|? ? Hnot Hrest]; subst.
    constructor; [|now apply IH].
    intro Hin. apply Hnot. now apply (subsequence_In sub l).
  - inversion Hnodup; subst. now apply IH.
Qed.

Lemma subsequence_Forall {A : Type} (P : A -> Prop) (sub l : list A) :
  subsequence sub l -> Forall P l -> Forall P sub.
Proof.
  intros Hsub Hall. rewrite Forall_forall in *.
  intros x Hin. apply Hall. now apply (subsequence_In sub l).
Qed.

(** ** Calls on the instance *)

Lemma then_Done {A B : Type} (m : method A) (k : A -> method B)
      (self self' : Config) (a : A) :
  m self = (Done a, self') -> then_ m k self = k a self'.
Proof. unfold then_. now intros ->. Qed.

Lemma call_found {A : Type} (name : string) (body : method A)
      (self : Config) :
  usable self -> In name METHODS -> call name body self = body self.
Proof. intros Husable Hin. unfold call. now rewrite (Husable name Hin). Qed.

Lemma call_state {A : Type} (P : Config -> Prop) (name : string)
      (body : method A) (self : Config) :
  P self -> P (snd (body self)) -> P (snd (call name body self)).
Proof.
  intros Hself Hbody. unfold call.
  destruct (dict_get (attributes self) name) as [v|]; [destruct v|];
    assumption.
Qed.

Lemma usable_attributes (self self' : Config) :
  attributes self' = attributes self -> usable self -> usable self'.
Proof. unfold usable. now intros ->. Qed.

Lemma usable_set (self : Config) (name : string) (v : value)
      (names : option (list string)) :
  contains METHODS name = false ->
  usable self ->
  usable (mkConfig (dict_set (attributes self) name v) names).
Proof.
  intros Hname Husable other Hother. cbn [attributes].
  rewrite dict_get_set.
  destruct (String.eqb_spec name other) as [->|_]; [|now apply Husable].
  apply contains_not_In in Hname. contradiction.
Qed.

Lemma settable_spec (name : string) :
  settable name = true ->
  (name =? "elements")%string = false
  /\ (name =? "_elements")%string = false
  /\ special name = false
  /\ contains METHODS name = false.
Proof.
  unfold settable. rewrite !andb_true_iff, !negb_true_iff. tauto.
Qed.

Lemma assign_elements_usable (names : list string) (self : Config) :
  usable self ->
  assign_elements names self
  = (Done tt, mkConfig (attributes self) (Some names)).
Proof.
  intro Husable. unfold assign_elements.
  erewrite then_Done by reflexivity.
  rewrite call_found; [reflexivity| |cbn; tauto].
  now apply (usable_attributes self).
Qed.

Lemma add_single_element_usable (name : string) (self : Config) :
  usable self ->
  add_single_element name self = (Done tt, with_element name self).
Proof.
  intro Husable.
  unfold add_single_element, add_single_element_with, with_element.
  destruct (contains RESERVED_NAMES name); [reflexivity|].
  cbn [negb orb].
  destruct (contains (elements self) name); [reflexivity|].
  cbn [negb]. now apply assign_elements_usable.
Qed.

Lemma with_element_attributes (name : string) (self : Config) :
  attributes (with_element name self) = attributes self.
Proof.
  unfold with_element.
  now destruct (contains RESERVED_NAMES name || contains (elements self) name).
Qed.

Lemma setattr_usable (name : string) (v : value) (self : Config) :
  usable self ->
  settable name = true ->
  __setattr__ name v self
  = (Done tt,
     with_element name (mkConfig (dict_set (attributes self) name v)
                                 (_elements self)))
  /\ usable (with_element name (mkConfig (dict_set (attributes self) name v)
                                         (_elements self))).
Proof.
  intros Husable Hname.
  destruct (settable_spec name Hname) as (He & Hu & Hs & Hm).
  assert (Hset : usable (mkConfig (dict_set (attributes self) name v)
                                  (_elements self)))
    by now apply usable_set.
  split.
  - unfold __setattr__.
    erewrite then_Done
      by (unfold object_setattr; rewrite He, Hu, Hs; reflexivity).
    rewrite call_found; [|exact Hset|cbn; tauto].
    now apply add_single_element_usable.
  - eapply usable_attributes; [apply with_element_attributes|exact Hset].
Qed.

(** ** The list of elements *)

Lemma assign_elements_state (names : list string) (self : Config) :
  elements (snd (assign_elements names self)) = names.
Proof.
  unfold assign_elements, then_, call. cbn [attributes].
  destruct (dict_get (attributes self) "add_single_element") as [v|];
    [destruct v|]; reflexivity.
Qed.

Lemma add_single_element_kept (name : string) (self : Config) :
  elements_kept self -> elements_kept (snd (add_single_element name self)).
Proof.
  intros [Hnodup Hallowed].
  unfold add_single_element, add_single_element_with.
  destruct (contains RESERVED_NAMES name) eqn:Hreserved; [now split|].
  cbn [negb].
  destruct (contains (elements self) name) eqn:Hin; [now split|].
  cbn [negb]. unfold elements_kept. rewrite assign_elements_state.
  apply contains_not_In in Hin. split.
  - apply NoDup_app; [exact Hnodup|repeat constructor; intros []|].
    intros x Hx [<-|[]]. contradiction.
  - apply Forall_app. split; [exact Hallowed|now repeat constructor].
Qed.

Lemma remove_element_kept (name : string) (self : Config) :
  elements_kept self -> elements_kept (snd (remove_element name self)).
Proof.
  intros [Hnodup Hallowed]. unfold remove_element.
  destruct (list_remove (elements self) name) as [remaining|] eqn:Hremove;
    [|now split].
  unfold elements_kept. rewrite assign_elements_state.
  apply list_remove_subsequence in Hremove. split.
  - now apply (subsequence_NoDup remaining (elements self)).
  - now apply (subsequence_Forall _ remaining (elements self)).
Qed.

Lemma then_state {A B : Type} (P : Config -> Prop) (m : method A)
      (k : A -> method B) (self : Config) :
  P (snd (m self)) ->
  (forall a self', P self' -> P (snd (k a self'))) ->
  P (snd (then_ m k self)).
Proof.
  intros Hm Hk. unfold then_.
  destruct (m self) as [[a|e| |] self']; cbn [snd] in *; auto.
Qed.

Lemma object_setattr_kept (name : string) (v : value) (self : Config) :
  elements_kept self -> elements_kept (snd (object_setattr name v self)).
Proof.
  intro Hkept. unfold object_setattr.
  now destruct (name =? "elements")%string,
    ((name =? "_elements")%string || special name).
Qed.

Lemma object_delattr_kept (name : string) (self : Config) :
  elements_kept self -> elements_kept (snd (object_delattr name self)).
Proof.
  intro Hkept. unfold object_delattr.
  destruct (name =? "elements")%string; [exact Hkept|].
  destruct (special name); [exact Hkept|].
  destruct (name =? "_elements")%string.
  - destruct (_elements self); [split; constructor|exact Hkept].
  - now destruct (dict_get (attributes self) name).
Qed.

Lemma call_modelled {A : Type} (name : string) (body : method A)
      (self : Config) :
  dict_get (attributes self) name <> Some VLogger ->
  fst (body self) <> Unmodelled ->
  fst (call name body self) <> Unmodelled.
Proof.
  intros Hlogger Hbody. unfold call.
  destruct (dict_get (attributes self) name) as [v|]; [|exact Hbody].
  destruct v; try discriminate. now destruct Hlogger.
Qed.

Lemma assign_elements_modelled (names : list string) (self : Config) :
  dict_get (attributes self) "add_single_element" <> Some VLogger ->
  fst (assign_elements names self) <> Unmodelled.
Proof.
  intro Hlogger. unfold assign_elements, then_.
  apply call_modelled; [exact Hlogger|discriminate].
Qed.

Lemma add_single_element_modelled (name : string) (self : Config) :
  dict_get (attributes self) "add_single_element" <> Some VLogger ->
  fst (add_single_element name self) <> Unmodelled.
Proof.
  intro Hlogger. unfold add_single_element, add_single_element_with.
  destruct (contains RESERVED_NAMES name); [discriminate|]. cbn [negb].
  destruct (contains (elements self) name); [discriminate|]. cbn [negb].
  now apply assign_elements_modelled.
Qed.

Lemma remove_element_modelled (name : string) (self : Config) :
  dict_get (attributes self) "add_single_element" <> Some VLogger ->
  fst (remove_element name self) <> Unmodelled.
Proof.
  intro Hlogger. unfold remove_element.
  destruct (list_remove (elements self) name); [|discriminate].
  now apply assign_elements_modelled.
Qed.

Lemma setattr_modelled (name : string) (v : value) (self : Config) :
  no_logger_called self ->
  special name = false ->
  (name =? "_elements")%string = false ->
  (v = VLogger -> contains METHODS name = false) ->
  fst (__setattr__ name v self) <> Unmodelled.
Proof.
  intros Hloggers Hspecial Hname Hvalue.
  assert (Hlogger : dict_get (dict_set (attributes self) name v)
                             "add_single_element" <> Some VLogger).
  { rewrite dict_get_set.
    destruct (String.eqb_spec name "add_single_element") as [->|_].
    - intros [= ->]. now specialize (Hvalue eq_refl).
    - apply Hloggers. cbn. tauto. }
  unfold __setattr__, then_, object_setattr.
  rewrite Hname, Hspecial. cbn [orb].
  destruct (name =? "elements")%string; [discriminate|].
  apply call_modelled; [exact Hlogger|].
  now apply add_single_element_modelled.
Qed.

Lemma delattr_modelled (name : string) (self : Config) :
  no_logger_called self ->
  special name = false ->
  fst (__delattr__ name self) <> Unmodelled.
Proof.
  intros Hloggers Hspecial.
  assert (Hkept : forall method_name,
             In method_name METHODS ->
             dict_get (dict_del (attributes self) name) method_name
             <> Some VLogger).
  { intros method_name Hin. rewrite dict_get_del.
    destruct (name =? method_name)%string; [discriminate|].
    now apply Hloggers. }
  assert (Hrun : forall self',
             (forall method_name,
                 In method_name METHODS ->
                 dict_get (attributes self') method_name <> Some VLogger) ->
             fst (call "remove_element" (remove_element name) self')
             <> Unmodelled).
  { intros self' Hself'.
    apply call_modelled; [apply Hself'; cbn; tauto|].
    apply remove_element_modelled, Hself'. cbn. tauto. }
  unfold __delattr__, then_, object_delattr. rewrite Hspecial.
  destruct (name =? "elements")%string; [discriminate|].
  destruct (name =? "_elements")%string.
  - destruct (_elements self); [|discriminate].
    apply Hrun. exact Hloggers.
  - destruct (dict_get (attributes self) name); [|discriminate].
    apply Hrun. exact Hkept.
Qed.

(** X8: whatever is assigned or deleted under a name that is not one of
    Python's own (none that starts with two underscores), and whether the
    call returns or raises, the list of elements keeps no name twice and no
    reserved name; for an assignment the name is not [_elements] either,
    which would replace the list.  The calls are followed to their end
    when no logger is in the place of a function of the class. *)
Theorem elements_stay_distinct_and_unreserved
        (name : string) (v : value) (self : Config) :
  elements_kept self ->
  special name = false ->
  ((name =? "_elements")%string = false ->
   elements_kept (snd (__setattr__ name v self))
   /\ (no_logger_called self ->
       (v = VLogger -> contains METHODS name = false) ->
       fst (__setattr__ name v self) <> Unmodelled))
  /\ elements_kept (snd (__delattr__ name self))
  /\ (no_logger_called self -> fst (__delattr__ name self) <> Unmodelled).
Proof.
  intros Hkept Hspecial. split; [intro Hname; split|split].
  - unfold __setattr__.
    apply (then_state elements_kept); [now apply object_setattr_kept|].
    intros _ self' Hkept'.
    apply (call_state elements_kept);
      [exact Hkept'|now apply add_single_element_kept].
  - intros Hloggers Hvalue. now apply setattr_modelled.
  - unfold __delattr__.
    apply (then_state elements_kept); [now apply object_delattr_kept|].
    intros _ self' Hkept'.
    apply (call_state elements_kept);
      [exact Hkept'|now apply remove_element_kept].
  - intro Hloggers. now apply delattr_modelled.
Qed.

Lemma elements_stay_distinct_and_unreserved_witness :
  (elements_kept
     (snd (__setattr__ "parameters" (VNum (Num 3)) new_instance))
   /\ fst (__setattr__ "parameters" (VNum (Num 3)) new_instance)
      <> Unmodelled)
  /\ elements_kept (snd (__delattr__ "parameters" new_instance))
  /\ fst (__delattr__ "parameters" new_instance) <> Unmodelled.
Proof.
  destruct (elements_stay_distinct_and_unreserved
              "parameters" (VNum (Num 3)) new_instance)
    as (Hset & Hdel & Hdel_runs).
  - split; constructor.
  - reflexivity.
  - destruct (Hset eq_refl) as [Hkept Hruns].
    split; [split; [exact Hkept|]|split; [exact Hdel|]].
    + apply Hruns; [intros name _; discriminate|discriminate].
    + apply Hdel_runs. intros name _. discriminate.
Defined.

Lemma dict_set_without_list (d : dict) (key : string) (v : value) :
  Forall (fun entry => without_list (snd entry) = true) d ->
  without_list v = true ->
  Forall (fun entry => without_list (snd entry) = true) (dict_set d key v).
Proof.
  intros Hd Hv.
  induction Hd as [|[k v'] d Hentry Hrest IH]; cbn [dict_set].
  - now repeat constructor.
  - destruct (k =? key)%string; constructor; assumption.
Qed.

(** ** Assigning and deleting attributes *)

(** X9: assigning a value that holds no list to a name that the class does
    not define, on an instance whose methods are in reach: the call
    returns, the attribute reads back as the value assigned, and the name
    is added at the end of the elements unless it is reserved or already
    there.  The other attributes are where they were, with the values they
    had when none of them holds a list. *)
Theorem setattr_then_get
        (name : string) (v default : value) (self : Config) :
  usable self ->
  settable name = true ->
  without_list v = true ->
  exists self',
    __setattr__ name v self = (Done tt, self')
    /\ usable self'
    /\ getattr_default name default self' = Done v
    /\ elements self'
       = (if contains RESERVED_NAMES name || contains (elements self) name
          then elements self else elements self ++ [name])
    /\ (attributes_without_list self ->
        attributes_without_list self'
        /\ forall other,
            other <> name ->
            dict_get (attributes self') other
            = dict_get (attributes self) other).
Proof.
  intros Husable Hname Hvalue.
  destruct (setattr_usable name v self Husable Hname) as [Hrun Husable'].
  destruct (settable_spec name Hname) as (He & Hu & _ & _).
  eexists. split; [exact Hrun|]. split; [exact Husable'|].
  split; [|split].
  - unfold getattr_default. rewrite He, Hu, with_element_attributes.
    cbn [attributes]. now rewrite dict_get_set, String.eqb_refl.
  - unfold with_element.
    change (elements (mkConfig (dict_set (attributes self) name v)
                               (_elements self)))
      with (elements self).
    now destruct (contains RESERVED_NAMES name
                  || contains (elements self) name).
  - intro Hothers. split.
    + unfold attributes_without_list. rewrite with_element_attributes.
      cbn [attributes]. now apply dict_set_without_list.
    + intros other Hother. rewrite with_element_attributes.
      cbn [attributes]. rewrite dict_get_set.
      destruct (String.eqb_spec name other); congruence.
Qed.

Lemma setattr_then_get_witness :
  exists self',
    __setattr__ "forecast_cap" (VNum (Num 22)) new_instance = (Done tt, self')
    /\ usable self'
    /\ getattr_default "forecast_cap" (VMarker missing_data) self'
       = Done (VNum (Num 22))
    /\ elements self'
       = (if contains RESERVED_NAMES "forecast_cap"
             || contains (elements new_instance) "forecast_cap"
          then elements new_instance
          else elements new_instance ++ ["forecast_cap"])
    /\ (attributes_without_list new_instance ->
        attributes_without_list self'
        /\ forall other,
            other <> "forecast_cap" ->
            dict_get (attributes self') other
            = dict_get (attributes new_instance) other).
Proof.
  apply (setattr_then_get "forecast_cap" (VNum (Num 22))
                          (VMarker missing_data) new_instance).
  - intros name _. reflexivity.
  - reflexivity.
  - reflexivity.
Defined.

(** X10: deleting an attribute that is not among the elements - a reserved
    one such as [log], for one - removes the attribute and then raises
    [ValueError], from the removal of its name from the list of elements;
    deleting an attribute that is not set raises [AttributeError] and
    changes nothing. *)
Theorem delattr_of_what_is_no_element (name : string) (self : Config) :
  (name =? "elements")%string = false ->
  (name =? "_elements")%string = false ->
  special name = false ->
  dict_get (attributes self) "remove_element" = None ->
  ~ In name (elements self) ->
  (forall v,
      dict_get (attributes self) name = Some v ->
      __delattr__ name self
      = (Failed (ValueError not_in_list),
         mkConfig (dict_del (attributes self) name) (_elements self)))
  /\ (dict_get (attributes self) name = None ->
      __delattr__ name self = (Failed AttributeError, self)).
Proof.
  intros He Hu Hs Hremove Hnot.
  unfold __delattr__, then_, object_delattr. rewrite He, Hu, Hs.
  split.
  - intros v ->. unfold call. cbn [attributes].
    rewrite dict_get_del, Hremove.
    assert (Hrun : remove_element name
                     (mkConfig (dict_del (attributes self) name)
                               (_elements self))
                   = (Failed (ValueError not_in_list),
                      mkConfig (dict_del (attributes self) name)
                               (_elements self))).
    { unfold remove_element.
      change (elements (mkConfig (dict_del (attributes self) name)
                                 (_elements self)))
        with (elements self).
      now rewrite (list_remove_not_In _ _ Hnot). }
    now destruct (name =? "remove_element")%string.
  - now intros ->.
Qed.

Lemma delattr_of_what_is_no_element_witness :
  __delattr__ "log" (mkConfig [("log", VLogger)] None)
  = (Failed (ValueError not_in_list), mkConfig [] None)
  /\ __delattr__ "forecast_cap" (mkConfig [("log", VLogger)] None)
     = (Failed AttributeError, mkConfig [("log", VLogger)] None).
Proof.
  split.
  - apply (proj1 (delattr_of_what_is_no_element
                    "log" (mkConfig [("log", VLogger)] None)
                    eq_refl eq_refl eq_refl eq_refl (fun H => H))
                 VLogger).
    reflexivity.
  - apply (proj2 (delattr_of_what_is_no_element
                    "forecast_cap" (mkConfig [("log", VLogger)] None)
                    eq_refl eq_refl eq_refl eq_refl (fun H => H))).
    reflexivity.
Defined.

(** X11: assigning to a new name and deleting it again gives back the
    elements and the attributes of before. *)
Theorem setattr_then_delattr (name : string) (v : value) (self : Config) :
  usable self ->
  settable name = true ->
  contains RESERVED_NAMES name = false ->
  dict_get (attributes self) name = None ->
  ~ In name (elements self) ->
  exists self',
    (__setattr__ name v ;;; __delattr__ name) self = (Done tt, self')
    /\ elements self' = elements self
    /\ (forall key,
           dict_get (attributes self') key = dict_get (attributes self) key).
Proof.
  intros Husable Hname Hreserved Hunset Hnot.
  destruct (setattr_usable name v self Husable Hname) as [Hrun Husable'].
  destruct (settable_spec name Hname) as (He & Hu & Hs & Hm).
  assert (Hwith : with_element name (mkConfig (dict_set (attributes self)
                                                        name v)
                                              (_elements self))
                  = mkConfig (dict_set (attributes self) name v)
                             (Some (elements self ++ [name]))).
  { unfold with_element.
    change (elements (mkConfig (dict_set (attributes self) name v)
                               (_elements self)))
      with (elements self).
    apply contains_not_In in Hnot. now rewrite Hreserved, Hnot. }
  rewrite Hwith in Hrun, Husable'.
  eexists. split.
  - erewrite then_Done by exact Hrun.
    unfold __delattr__.
    erewrite then_Done
      by (unfold object_delattr; rewrite He, Hu, Hs; cbn [attributes];
          rewrite dict_get_set, String.eqb_refl; reflexivity).
    rewrite call_found; [|intros other Hother|cbn; tauto].
    + unfold remove_element. cbn [elements _elements].
      rewrite (list_remove_last _ _ Hnot).
      apply assign_elements_usable.
      intros other Hother. cbn [attributes]. rewrite dict_get_del.
      destruct (name =? other)%string; [reflexivity|].
      now apply (Husable' other).
    + cbn [attributes]. rewrite dict_get_del.
      destruct (name =? other)%string; [reflexivity|].
      now apply (Husable' other).
  - cbn [elements _elements attributes]. split; [reflexivity|].
    intro key. rewrite dict_get_del, dict_get_set.
    destruct (String.eqb_spec name key) as [<-|]; [now rewrite Hunset|].
    reflexivity.
Qed.

Lemma setattr_then_delattr_witness :
  exists self',
    (__setattr__ "another_thing" (VList []) ;;; __delattr__ "another_thing")
      (mkConfig [("log", VLogger); ("parameters", VDict [])]
                (Some ["parameters"]))
    = (Done tt, self')
    /\ elements self' = ["parameters"]
    /\ (forall key,
           dict_get (attributes self') key
           = dict_get [("log", VLogger); ("parameters", VDict [])] key).
Proof.
  apply (setattr_then_delattr
           "another_thing" (VList [])
           (mkConfig [("log", VLogger); ("parameters", VDict [])]
                     (Some ["parameters"]))).
  - intros name Hname. cbn in Hname.
    repeat (destruct Hname as [<-|Hname]; [reflexivity|]).
    destruct Hname.
  - reflexivity.
  - reflexivity.
  - reflexivity.
  - cbn. intros [H|[]]. discriminate H.
Defined.

(** ** Sorted names *)

Lemma insert_name_perm (name : string) (l : list string) :
  Permutation (name :: l) (insert_name name l).
Proof.
  induction l as [|name' l IH]; cbn [insert_name]; [reflexivity|].
  destruct (String.leb name name'); [reflexivity|].
  rewrite perm_swap. now apply perm_skip.
Qed.

Lemma sorted_perm (l : list string) : Permutation l (sorted l).
Proof.
  induction l as [|name l IH]; cbn [sorted]; [constructor|].
  rewrite <- insert_name_perm. now apply perm_skip.
Qed.

Lemma insert_name_sorted (name : string) (l : list string) :
  Sorted name_le l -> Sorted name_le (insert_name name l).
Proof.
  induction 1 as [|name' l Hsorted IH Hhd]; cbn [insert_name].
  - repeat constructor.
  - destruct (String.leb name name') eqn:Hle.
    + repeat constructor; assumption.
    + constructor; [exact IH|].
      assert (Hge : name_le name' name).
      { destruct (String.leb_total name name') as [H|H]; [congruence|].
        exact H. }
      destruct l as [|name'' l]; cbn [insert_name]; [now constructor|].
      destruct (String.leb name name''); constructor;
        [exact Hge|now inversion Hhd].
Qed.

Lemma sorted_Sorted (l : list string) : Sorted name_le (sorted l).
Proof.
  induction l as [|name l IH]; cbn [sorted]; [constructor|].
  now apply insert_name_sorted.
Qed.


(** ** [__repr__] *)


(** ** [as_dict] *)

Lemma getattr_default_of_element (self : Config) (name : string)
      (default : value) (v : value) :
  contains RESERVED_NAMES name = false ->
  dict_get (attributes self) name = Some v ->
  getattr_default name default self = Done v.
Proof.
  intros Hreserved Hv. unfold getattr_default.
  destruct (String.eqb_spec name "elements") as [->|_];
    [discriminate Hreserved|].
  destruct (String.eqb_spec name "_elements") as [->|_];
    [discriminate Hreserved|].
  now rewrite Hv.
Qed.

Lemma as_dict_fold (self : Config) (names : list string) :
  Forall (fun name =>
            getattr_default name (VStr "") self
            = Done (attribute_or_empty self name)) names ->
  forall d,
    fold_left
      (fun self_as_dict element =>
         match self_as_dict with
         | Done d =>
             match getattr_default element (VStr "") self with
             | Done v => Done (dict_set d element v)
             | Failed e => Failed e
             | TooDeep => TooDeep
             | Unmodelled => Unmodelled
             end
         | other => other
         end)
      names (Done d)
    = Done (fold_left
              (fun d name => dict_set d name (attribute_or_empty self name))
              names d).
Proof.
  induction 1 as [|name names Hname _ IH]; intro d; [reflexivity|].
  cbn [fold_left]. rewrite Hname. apply IH.
Qed.

Lemma dict_keys_set (d : dict) (key : string) (v : value) :
  dict_keys (dict_set d key v)
  = if contains (dict_keys d) key then dict_keys d else dict_keys d ++ [key].
Proof.
  unfold dict_keys, contains.
  induction d as [|[k v'] d IH]; cbn [dict_set map fst existsb app].
  - reflexivity.
  - rewrite (String.eqb_sym key k).
    destruct (k =? key)%string; cbn [map fst orb]; [reflexivity|].
    rewrite IH.
    now destruct (existsb (String.eqb key) (map fst d)).
Qed.

Lemma fold_set_keys (f : string -> value) (names : list string) (d : dict) :
  NoDup (dict_keys d ++ names) ->
  dict_keys (fold_left (fun d name => dict_set d name (f name)) names d)
  = dict_keys d ++ names.
Proof.
  revert d.
  induction names as [|name names IH]; intros d Hnodup; cbn [fold_left].
  - now rewrite app_nil_r.
  - assert (Hkeys : dict_keys (dict_set d name (f name))
                    = dict_keys d ++ [name]).
    { rewrite dict_keys_set.
      destruct (contains (dict_keys d) name) eqn:Hin; [|reflexivity].
      apply contains_In in Hin. apply NoDup_remove_2 in Hnodup.
      exfalso. apply Hnodup. apply in_or_app. now left. }
    rewrite IH; rewrite Hkeys, <- app_assoc; [reflexivity|exact Hnodup].
Qed.

Lemma fold_set_get (f : string -> value) (names : list string) (d : dict)
      (key : string) :
  dict_get (fold_left (fun d name => dict_set d name (f name)) names d) key
  = if contains names key then Some (f key) else dict_get d key.
Proof.
  revert d.
  induction names as [|name names IH]; intro d; cbn [fold_left];
    [reflexivity|].
  rewrite IH. unfold contains. cbn [existsb].
  fold (contains names key).
  destruct (contains names key); [now rewrite orb_true_r|].
  rewrite orb_false_r, dict_get_set, (String.eqb_sym name key).
  destruct (String.eqb_spec key name) as [->|]; reflexivity.
Qed.

Lemma sorted_member (l : list string) (name : string) :
  In name (sorted l) -> In name l.
Proof. apply Permutation_in. symmetry. apply sorted_perm. Qed.

Lemma member_sorted (l : list string) (name : string) :
  In name l -> In name (sorted l).
Proof. apply Permutation_in. apply sorted_perm. Qed.

(** What [as_dict] computes when its elements are names of attributes. *)
Lemma as_dict_runs (self : Config) :
  elements_kept self ->
  tracked self ->
  as_dict self
  = Done (fold_left
            (fun d name => dict_set d name (attribute_or_empty self name))
            (sorted (elements self)) []).
Proof.
  intros [_ Hallowed] Htracked.
  unfold as_dict. apply as_dict_fold.
  apply Forall_forall. intros name Hname. apply sorted_member in Hname.
  destruct (Htracked name Hname) as [v Hv].
  unfold attribute_or_empty. rewrite Hv.
  apply getattr_default_of_element; [|exact Hv].
  rewrite Forall_forall in Hallowed. now apply Hallowed.
Qed.

Lemma as_dict_keys (self : Config) :
  NoDup (elements self) ->
  dict_keys (fold_left
               (fun d name => dict_set d name (attribute_or_empty self name))
               (sorted (elements self)) [])
  = sorted (elements self).
Proof.
  intro Hnodup. rewrite fold_set_keys; [reflexivity|].
  cbn [dict_keys map app].
  apply (Permutation_NoDup (sorted_perm (elements self)) Hnodup).
Qed.

(** X13: [as_dict] of an instance whose elements are names of attributes: its
    keys are the elements in sorted order, each once, and each key has
    the value of the attribute; nothing else is in it. *)
Theorem as_dict_of_the_elements (self : Config) :
  elements_kept self ->
  tracked self ->
  exists d,
    as_dict self = Done d
    /\ dict_keys d = sorted (elements self)
    /\ Sorted name_le (dict_keys d)
    /\ Permutation (elements self) (dict_keys d)
    /\ (forall name,
           In name (elements self) ->
           dict_get d name = dict_get (attributes self) name)
    /\ (forall name, ~ In name (elements self) -> dict_get d name = None).
Proof.
  intros Hkept Htracked.
  eexists. split; [now apply as_dict_runs|].
  rewrite (as_dict_keys self (proj1 Hkept)).
  split; [reflexivity|]. split; [apply sorted_Sorted|].
  split; [apply sorted_perm|]. split.
  - intros name Hname. rewrite fold_set_get.
    assert (Hin : contains (sorted (elements self)) name = true)
      by now apply contains_In, member_sorted.
    rewrite Hin. unfold attribute_or_empty.
    now destruct (Htracked name Hname) as [v ->].
  - intros name Hname. rewrite fold_set_get.
    assert (Hnot : contains (sorted (elements self)) name = false).
    { apply contains_not_In. intro H. apply Hname.
      now apply sorted_member. }
    now rewrite Hnot.
Qed.

Lemma as_dict_of_the_elements_witness :
  exists d,
    as_dict (mkConfig [("log", VLogger); ("parameters", VDict []);
                       ("another_thing", VList [])]
                      (Some ["parameters"; "another_thing"]))
    = Done d
    /\ dict_keys d = ["another_thing"; "parameters"].
Proof.
  destruct (as_dict_of_the_elements
              (mkConfig [("log", VLogger); ("parameters", VDict []);
                         ("another_thing", VList [])]
                        (Some ["parameters"; "another_thing"])))
    as (d & Hd & Hkeys & _).
  - split.
    + repeat constructor; cbn; intuition discriminate.
    + repeat constructor.
  - intros name [<-|[<-|[]]]; cbn; eauto.
  - exists d. split; [exact Hd|exact Hkeys].
Defined.

(** ** Reading a dictionary into the instance *)

Lemma elements_with_element (name : string) (self : Config) :
  elements (with_element name self) = add_name (elements self) name.
Proof.
  unfold with_element, add_name.
  now destruct (contains RESERVED_NAMES name || contains (elements self) name).
Qed.

Lemma add_name_keeps (names : list string) (name x : string) :
  In x names -> In x (add_name names name).
Proof.
  intro Hin. unfold add_name.
  destruct (contains RESERVED_NAMES name || contains names name);
    [exact Hin|]. apply in_or_app. now left.
Qed.

Lemma add_names_keeps (new names : list string) (x : string) :
  In x names -> In x (add_names names new).
Proof.
  revert names. unfold add_names.
  induction new as [|name new IH]; intros names Hin; [exact Hin|].
  cbn [fold_left]. apply IH. now apply add_name_keeps.
Qed.

Lemma add_names_adds (new names : list string) (x : string) :
  In x new ->
  contains RESERVED_NAMES x = false ->
  In x (add_names names new).
Proof.
  revert names. unfold add_names.
  induction new as [|name new IH]; intros names Hin Hallowed; [destruct Hin|].
  cbn [fold_left]. destruct Hin as [->|Hin]; [|now apply IH].
  apply (add_names_keeps new). unfold add_name. rewrite Hallowed.
  cbn [orb]. destruct (contains names x) eqn:Hx.
  - now apply contains_In.
  - apply in_or_app. right. now left.
Qed.

Lemma add_names_present (new names : list string) :
  Forall (fun name => contains RESERVED_NAMES name = true \/ In name names)
         new ->
  add_names names new = names.
Proof.
  unfold add_names.
  induction 1 as [|name new Hname _ IH]; [reflexivity|].
  cbn [fold_left].
  assert (Hsame : add_name names name = names).
  { unfold add_name. destruct Hname as [->|Hin]; [reflexivity|].
    apply contains_In in Hin. rewrite Hin. now rewrite orb_true_r. }
  now rewrite Hsame.
Qed.

(** Fresh names that are not reserved are added in their order. *)
Lemma add_names_fresh (new names : list string) :
  NoDup (names ++ new) ->
  Forall (fun name => contains RESERVED_NAMES name = false) new ->
  add_names names new = names ++ new.
Proof.
  unfold add_names. revert names.
  induction new as [|name new IH]; intros names Hnodup Hallowed.
  - now rewrite app_nil_r.
  - cbn [fold_left]. inversion Hallowed as [|? ? Hname Hrest]; subst.
    assert (Hadd : add_name names name = names ++ [name]).
    { unfold add_name. rewrite Hname. cbn [orb].
      destruct (contains names name) eqn:Hin; [|reflexivity].
      apply contains_In in Hin. apply NoDup_remove_2 in Hnodup.
      exfalso. apply Hnodup. apply in_or_app. now left. }
    rewrite Hadd, IH; rewrite <- ?app_assoc; [reflexivity|exact Hnodup|].
    exact Hrest.
Qed.

Lemma dict_get_key (d : dict) (key : string) :
  In key (dict_keys d) -> exists v, dict_get d key = Some v.
Proof.
  unfold dict_keys.
  induction d as [|[k v] d IH]; [intros []|].
  cbn [map fst dict_get]. intros [->|Hin].
  - rewrite String.eqb_refl. eauto.
  - destruct (k =? key)%string; [eauto|now apply IH].
Qed.

Lemma dict_get_not_key (d : dict) (key : string) :
  ~ In key (dict_keys d) -> dict_get d key = None.
Proof.
  unfold dict_keys.
  induction d as [|[k v] d IH]; [reflexivity|].
  cbn [map fst dict_get]. intro Hnot.
  destruct (String.eqb_spec k key) as [->|_];
    [exfalso; apply Hnot; now left|].
  apply IH. intro H. apply Hnot. now right.
Qed.

(** The comprehension that assigns the entries of [d] for the keys [keys]. *)
Lemma setattr_each (d : dict) (keys : list string) (self : Config) :
  usable self ->
  Forall (fun key => settable key = true) keys ->
  incl keys (dict_keys d) ->
  exists self',
    for_each (fun keyname =>
                match dict_get d keyname with
                | Some v => __setattr__ keyname v
                | None => raise (Exception "KeyError")
                end) keys self
    = (Done tt, self')
    /\ usable self'
    /\ elements self' = add_names (elements self) keys
    /\ (forall key,
           dict_get (attributes self') key
           = if contains keys key then dict_get d key
             else dict_get (attributes self) key).
Proof.
  intros Husable Hsettable. revert self Husable.
  induction Hsettable as [|k keys Hk _ IH]; intros self Husable Hincl.
  - exists self. repeat split; assumption.
  - destruct (dict_get_key d k) as [v Hv]; [apply Hincl; now left|].
    destruct (setattr_usable k v self Husable Hk) as [Hrun Husable1].
    destruct (IH _ Husable1) as (self' & Hloop & Husable' & Hels & Hget).
    { intros x Hx. apply Hincl. now right. }
    exists self'. split; [|split; [exact Husable'|split]].
    + cbn [for_each]. rewrite Hv.
      erewrite then_Done by exact Hrun. exact Hloop.
    + rewrite Hels, elements_with_element. reflexivity.
    + intro key. rewrite Hget, with_element_attributes. cbn [attributes].
      rewrite dict_get_set. unfold contains. cbn [existsb].
      fold (contains keys key). rewrite (String.eqb_sym key k).
      destruct (contains keys key); [now rewrite orb_true_r|].
      rewrite orb_false_r.
      destruct (String.eqb_spec k key) as [<-|]; [now rewrite Hv|].
      reflexivity.
Qed.

Lemma add_elements_present (names : list string) (self : Config) :
  usable self ->
  Forall (fun name => contains RESERVED_NAMES name = true
                      \/ In name (elements self)) names ->
  add_elements names self = (Done tt, self).
Proof.
  intros Husable Hpresent. unfold add_elements.
  induction Hpresent as [|name names Hname _ IH]; [reflexivity|].
  cbn [for_each].
  erewrite then_Done; [exact IH|].
  rewrite call_found; [|exact Husable|cbn; tauto].
  rewrite add_single_element_usable by exact Husable.
  unfold with_element.
  destruct Hname as [->|Hin]; [reflexivity|].
  apply contains_In in Hin. rewrite Hin. now rewrite orb_true_r.
Qed.

(** Reading a dictionary whose keys can be assigned, once its base
    configuration (if it names one) has been read and has left the
    instance [after_base]: the entries of the dictionary are written over
    the attributes, and its keys that are new are added to the elements
    in their order. *)
Lemma create_config_from_dict_entries
      (from_item : value -> method unit) (d : dict)
      (self after_base : Config) :
  usable self ->
  usable after_base ->
  Forall (fun key => settable key = true) (dict_keys d) ->
  match dict_get d "base_config" with
  | None | Some VNone => after_base = self
  | Some base_config => from_item base_config self = (Done tt, after_base)
  end ->
  exists self',
    _create_config_from_dict_with from_item (VDict d) self = (Done tt, self')
    /\ usable self'
    /\ elements self' = add_names (elements after_base) (dict_keys d)
    /\ (forall key,
           dict_get (attributes self') key
           = match dict_get d key with
             | Some v => Some v
             | None => dict_get (attributes after_base) key
             end).
Proof.
  intros Husable Husable_base Hsettable Hbase.
  destruct (setattr_each d (dict_keys d) after_base Husable_base Hsettable
                         (incl_refl _))
    as (self' & Hloop & Husable' & Hels & Hget).
  exists self'. split; [|split; [exact Husable'|split; [exact Hels|]]].
  - unfold _create_config_from_dict_with.
    assert (Hfirst :
              match dict_get d "base_config" with
              | None | Some VNone => ret tt
              | Some base_config =>
                  call "_create_config_from_item" (from_item base_config)
              end self = (Done tt, after_base)).
    { destruct (dict_get d "base_config") as [base|];
        [|now subst after_base].
      destruct base; try (rewrite call_found; [exact Hbase|exact Husable|];
                          cbn; tauto).
      now subst after_base. }
    erewrite then_Done by exact Hfirst.
    erewrite then_Done by exact Hloop.
    rewrite call_found; [|exact Husable'|cbn; tauto].
    apply add_elements_present; [exact Husable'|].
    apply Forall_forall. intros name Hname.
    destruct (contains RESERVED_NAMES name) eqn:Hreserved; [now left|].
    right. rewrite Hels. now apply add_names_adds.
  - intro key. rewrite Hget.
    destruct (contains (dict_keys d) key) eqn:Hkey.
    + apply contains_In, dict_get_key in Hkey. now destruct Hkey as [v ->].
    + apply contains_not_In, dict_get_not_key in Hkey. now rewrite Hkey.
Qed.

Lemma add_names_new (new names extra : list string) :
  NoDup new ->
  (forall x, In x new -> ~ In x extra) ->
  Forall (fun name => contains RESERVED_NAMES name = false) new ->
  add_names (names ++ extra) new
  = names ++ extra ++ filter (fun key => negb (contains names key)) new.
Proof.
  unfold add_names. revert extra.
  induction new as [|k new IH]; intros extra Hnodup Hfresh Hallowed.
  - cbn. now rewrite app_nil_r.
  - inversion Hnodup as [|? ? Hk Hrest]; subst.
    inversion Hallowed as [|? ? Hname Hallowed']; subst.
    cbn [fold_left filter]. unfold add_name at 2. rewrite Hname. cbn [orb].
    assert (Hsame : contains (names ++ extra) k = contains names k).
    { destruct (contains names k) eqn:Hin.
      - apply contains_In. apply in_or_app. left. now apply contains_In.
      - apply contains_not_In. intro H. apply in_app_or in H.
        destruct H as [H|H].
        + apply contains_not_In in Hin. contradiction.
        + apply (Hfresh k); [now left|exact H]. }
    rewrite Hsame. destruct (contains names k); cbn [negb].
    + apply IH; [exact Hrest| |exact Hallowed'].
      intros x Hx. apply Hfresh. now right.
    + rewrite <- app_assoc.
      rewrite (IH (extra ++ [k])); [now rewrite <- app_assoc| | |];
        [exact Hrest| |exact Hallowed'].
      intros x Hx H. apply in_app_or in H. destruct H as [H|[<-|[]]].
      * apply (Hfresh x); [now right|exact H].
      * contradiction.
Qed.

Lemma usable_initial (default_filename : value) :
  usable (initial default_filename).
Proof.
  intros name Hname. cbn in Hname.
  repeat (destruct Hname as [<-|Hname]; [reflexivity|]).
  destruct Hname.
Qed.

Lemma then_not_Done {A B : Type} (m : method A) (k : A -> method B)
      (self : Config) :
  (forall a, fst (m self) = Done a -> forall b, fst (k a (snd (m self))) <> Done b) ->
  forall b, fst (then_ m k self) <> Done b.
Proof.
  intros Hk b. unfold then_.
  destruct (m self) as [[a|e| |] self'] eqn:Hm; cbn [fst snd] in *;
    try discriminate.
  now apply Hk.
Qed.

Lemma then_first_not_Done {A B : Type} (m : method A) (k : A -> method B)
      (self : Config) :
  (forall a, fst (m self) <> Done a) ->
  forall b, fst (then_ m k self) <> Done b.
Proof.
  intros Hm b. unfold then_.
  destruct (m self) as [[a|e| |] self'] eqn:Hrun; cbn [fst] in *;
    try discriminate.
  now contradiction (Hm a).
Qed.

Lemma for_each_not_Done {A : Type} (body : A -> method unit) (l : list A)
      (x : A) :
  In x l ->
  (forall self, fst (body x self) <> Done tt) ->
  forall self, fst (for_each body l self) <> Done tt.
Proof.
  intros Hin Hbody.
  induction l as [|y l IH]; [destruct Hin|]. intro self.
  cbn [for_each]. unfold then_.
  destruct (body y self) as [[[]|e| |] self'] eqn:Hy; cbn [fst];
    try discriminate.
  destruct Hin as [->|Hin]; [|now apply IH].
  specialize (Hbody self). rewrite Hy in Hbody. now contradiction Hbody.
Qed.

Lemma call_not_Done {A : Type} (name : string) (body : method A)
      (self : Config) (a : A) :
  fst (body self) <> Done a -> fst (call name body self) <> Done a.
Proof.
  intro Hbody. unfold call.
  destruct (dict_get (attributes self) name) as [v|]; [|exact Hbody].
  destruct v; discriminate.
Qed.

Section Construction.

Variable read_yaml : string -> result value.
Variable critical : string -> option exception.

Let construct := __init__ read_yaml critical.

Lemma init_of_one_item (depth : nat) (config_item default_filename : value) :
  match config_item with
  | VList _ | VMarker arg_not_supplied => False
  | _ => True
  end ->
  construct depth config_item default_filename new_instance
  = (call "_create_config_from_item"
          (_create_config_from_item read_yaml critical depth config_item)
     ;;; ret tt) (initial default_filename).
Proof.
  subst construct.
  destruct config_item as [| | | | | |[|]|]; intros []; reflexivity.
Qed.

Lemma item_of_flat_dict (depth : nat) (d : dict) (self : Config) :
  usable self ->
  flat d ->
  exists self',
    _create_config_from_item read_yaml critical (S depth) (VDict d) self
    = (Done tt, self')
    /\ usable self'
    /\ elements self' = add_names (elements self) (dict_keys d)
    /\ (forall key,
           dict_get (attributes self') key
           = match dict_get d key with
             | Some v => Some v
             | None => dict_get (attributes self) key
             end).
Proof.
  intros Husable (Hnodup & Hsettable & Hallowed & Hbase).
  cbn [_create_config_from_item].
  rewrite call_found; [|exact Husable|cbn; tauto].
  apply create_config_from_dict_entries; try assumption.
  now rewrite Hbase.
Qed.

Lemma dict_get_Some_key (d : dict) (key : string) (v : value) :
  dict_get d key = Some v -> In key (dict_keys d).
Proof.
  intro Hv. destruct (in_dec String.string_dec key (dict_keys d)) as [H|H];
    [exact H|].
  rewrite (dict_get_not_key d key H) in Hv. discriminate Hv.
Qed.

(** X14: a configuration made from one dictionary without a base
    configuration, whose keys are names that can be elements: it is made
    without error, its elements are the keys of the dictionary in their
    order, every key reads back as its value, and [as_dict] gives the
    entries of the dictionary back, sorted by key. *)
Theorem config_from_a_dict (depth : nat) (d : dict) (default_filename : value) :
  flat d ->
  exists config,
    construct (S depth) (VDict d) default_filename new_instance
    = (Done tt, config)
    /\ elements config = dict_keys d
    /\ (forall key v,
           dict_get d key = Some v ->
           get_element_or_missing_data key config = Done v)
    /\ exists d',
         as_dict config = Done d'
         /\ dict_keys d' = sorted (dict_keys d)
         /\ (forall key, dict_get d' key = dict_get d key).
Proof.
  intro Hflat. rewrite init_of_one_item by exact I.
  destruct (item_of_flat_dict depth d (initial default_filename)
                              (usable_initial _) Hflat)
    as (config & Hrun & Husable & Hels & Hget).
  destruct Hflat as (Hnodup & Hsettable & Hallowed & Hbase).
  assert (Hkeys : elements config = dict_keys d).
  { rewrite Hels. now apply (add_names_fresh (dict_keys d) []). }
  assert (Hread : forall key v, dict_get d key = Some v ->
                                dict_get (attributes config) key = Some v).
  { intros key v Hv. now rewrite Hget, Hv. }
  exists config. split; [|split; [exact Hkeys|split]].
  - erewrite then_Done; [reflexivity|].
    rewrite call_found; [exact Hrun|apply usable_initial|cbn; tauto].
  - intros key v Hv. apply getattr_default_of_element; [|now apply Hread].
    rewrite Forall_forall in Hallowed.
    apply Hallowed. now apply (dict_get_Some_key d key v).
  - assert (Hkept : elements_kept config)
      by (unfold elements_kept; now rewrite Hkeys).
    eexists. split.
    + apply as_dict_runs; [exact Hkept|].
      intros name Hname. rewrite Hkeys in Hname.
      destruct (dict_get_key d name Hname) as [v Hv]. eauto.
    + rewrite (as_dict_keys config (proj1 Hkept)), Hkeys.
      split; [reflexivity|]. intro key. rewrite fold_set_get.
      destruct (contains (sorted (dict_keys d)) key) eqn:Hkey.
      * apply contains_In, sorted_member in Hkey.
        destruct (dict_get_key d key Hkey) as [v Hv].
        unfold attribute_or_empty. now rewrite Hv, (Hread key v Hv).
      * apply contains_not_In in Hkey.
        symmetry. apply dict_get_not_key.
        intro H. apply Hkey. now apply member_sorted.
Qed.

(** X15: a configuration made from a list of two dictionaries: the entries of
    the later one are written over those of the earlier one, and the
    elements are the keys of the earlier one followed by the new keys of
    the later one. *)
Theorem later_dict_overrides
        (depth : nat) (d1 d2 : dict) (default_filename : value) :
  flat d1 ->
  flat d2 ->
  exists config,
    construct (S depth) (VList [VDict d1; VDict d2]) default_filename
              new_instance
    = (Done tt, config)
    /\ elements config = dict_keys d1 ++ new_keys d1 d2
    /\ (forall key,
           dict_get (attributes config) key
           = match dict_get d2 key with
             | Some v => Some v
             | None =>
                 match dict_get d1 key with
                 | Some v => Some v
                 | None => dict_get (attributes (initial default_filename)) key
                 end
             end).
Proof.
  intros Hflat1 Hflat2.
  destruct (item_of_flat_dict depth d1 (initial default_filename)
                              (usable_initial _) Hflat1)
    as (config1 & Hrun1 & Husable1 & Hels1 & Hget1).
  destruct (item_of_flat_dict depth d2 config1 Husable1 Hflat2)
    as (config2 & Hrun2 & Husable2 & Hels2 & Hget2).
  exists config2. split; [|split].
  - change (construct (S depth) (VList [VDict d1; VDict d2])
                      default_filename new_instance)
      with (_create_config_from_list read_yaml critical (S depth)
                                     [VDict d1; VDict d2]
                                     (initial default_filename)).
    unfold _create_config_from_list. cbn [for_each].
    erewrite then_Done
      by (rewrite call_found;
          [exact Hrun1|apply usable_initial|cbn; tauto]).
    erewrite then_Done
      by (rewrite call_found; [exact Hrun2|exact Husable1|cbn; tauto]).
    reflexivity.
  - destruct Hflat1 as (Hnodup1 & _ & Hallowed1 & _).
    destruct Hflat2 as (Hnodup2 & _ & Hallowed2 & _).
    rewrite Hels2, Hels1.
    change (elements (initial default_filename)) with (@nil string).
    rewrite (add_names_fresh (dict_keys d1) []) by assumption.
    cbn [app].
    rewrite <- (app_nil_r (dict_keys d1)) at 1.
    rewrite (add_names_new (dict_keys d2) (dict_keys d1) [])
      by (try assumption; intros x _ []).
    reflexivity.
  - intro key. rewrite Hget2, Hget1. reflexivity.
Qed.

(** X16: a dictionary that names a base configuration, itself a dictionary
    without one: the base is read first, the entries of the dictionary
    are written over those of the base, and the elements are the keys of
    the base followed by the new keys of the dictionary, [base_config]
    among them. *)
Theorem base_config_is_read_first
        (depth : nat) (base d : dict) (default_filename : value) :
  flat base ->
  NoDup (dict_keys d) ->
  Forall (fun key => settable key = true) (dict_keys d) ->
  Forall (fun key => contains RESERVED_NAMES key = false) (dict_keys d) ->
  dict_get d "base_config" = Some (VDict base) ->
  exists config,
    construct (S (S depth)) (VDict d) default_filename new_instance
    = (Done tt, config)
    /\ elements config = dict_keys base ++ new_keys base d
    /\ In "base_config" (elements config)
    /\ (forall key,
           dict_get (attributes config) key
           = match dict_get d key with
             | Some v => Some v
             | None =>
                 match dict_get base key with
                 | Some v => Some v
                 | None => dict_get (attributes (initial default_filename)) key
                 end
             end).
Proof.
  intros Hflat Hnodup Hsettable Hallowed Hbase.
  destruct (item_of_flat_dict depth base (initial default_filename)
                              (usable_initial _) Hflat)
    as (config1 & Hrun1 & Husable1 & Hels1 & Hget1).
  destruct (create_config_from_dict_entries
              (_create_config_from_item read_yaml critical (S depth))
              d (initial default_filename) config1
              (usable_initial _) Husable1 Hsettable)
    as (config2 & Hrun2 & Husable2 & Hels2 & Hget2);
    [now rewrite Hbase|].
  assert (Hkeys : elements config2 = dict_keys base ++ new_keys base d).
  { destruct Hflat as (Hnodup1 & _ & Hallowed1 & _).
    rewrite Hels2, Hels1.
    change (elements (initial default_filename)) with (@nil string).
    rewrite (add_names_fresh (dict_keys base) []) by assumption.
    cbn [app].
    rewrite <- (app_nil_r (dict_keys base)) at 1.
    rewrite (add_names_new (dict_keys d) (dict_keys base) [])
      by (try assumption; intros x _ []).
    reflexivity. }
  exists config2. split; [|split; [exact Hkeys|split]].
  - rewrite init_of_one_item by exact I.
    erewrite then_Done; [reflexivity|].
    rewrite call_found; [|apply usable_initial|cbn; tauto].
    cbn [_create_config_from_item].
    rewrite call_found; [exact Hrun2|apply usable_initial|cbn; tauto].
  - rewrite Hels2. apply add_names_adds.
    + now apply (dict_get_Some_key d _ (VDict base)).
    + reflexivity.
  - intro key. rewrite Hget2, Hget1. reflexivity.
Qed.

(** X17: a file whose dictionary names the file itself as its base
    configuration cannot be read: whatever depth of calls is allowed, the
    recursion uses it up, and nothing is assigned. *)
Theorem file_that_is_its_own_base
        (filename : string) (d : dict) (default_filename : value) :
  read_yaml filename = Return (VDict d) ->
  dict_get d "base_config" = Some (VStr filename) ->
  forall depth,
    construct depth (VStr filename) default_filename new_instance
    = (TooDeep, initial default_filename).
Proof.
  intros Hfile Hbase depth.
  rewrite init_of_one_item by exact I.
  assert (Hdeep : forall self,
             usable self ->
             _create_config_from_item read_yaml critical depth
                                      (VStr filename) self
             = (TooDeep, self)).
  { induction depth as [|depth IH]; intros self Husable; [reflexivity|].
    cbn [_create_config_from_item]. rewrite Hfile.
    rewrite call_found; [|exact Husable|cbn; tauto].
    unfold _create_config_from_dict_with. rewrite Hbase.
    unfold then_ at 1.
    rewrite call_found; [|exact Husable|cbn; tauto].
    now rewrite (IH self Husable). }
  unfold then_.
  rewrite call_found; [|apply usable_initial|cbn; tauto].
  now rewrite Hdeep by apply usable_initial.
Qed.

(** X18: an item that is neither a dictionary nor the name of a file raises
    nothing by itself: the message goes to the logger, and the
    configuration is left without elements; only if the logger raises
    does the construction raise. *)
Theorem config_from_no_config
        (depth : nat) (config_item default_filename : value) :
  no_config config_item ->
  construct (S depth) config_item default_filename new_instance
  = (match critical not_a_config with
     | None => Done tt
     | Some e => Failed e
     end, initial default_filename)
  /\ elements (initial default_filename) = [].
Proof.
  intro Hitem. split; [|reflexivity].
  rewrite init_of_one_item
    by (destruct config_item as [| | | | | |[|]|]; now try exact I).
  unfold then_.
  rewrite call_found; [|apply usable_initial|cbn; tauto].
  destruct config_item as [| | | | | |[|]|]; try destruct Hitem;
    cbn [_create_config_from_item]; unfold log_critical; cbn;
    now destruct (critical not_a_config).
Qed.

(** X19: a dictionary with the key [elements] cannot be read: [elements] is a
    property of the class that cannot be assigned to. *)
Theorem config_with_key_elements_fails
        (depth : nat) (d : dict) (default_filename : value) :
  In "elements" (dict_keys d) ->
  fst (construct depth (VDict d) default_filename new_instance) <> Done tt.
Proof.
  intro Hkey. rewrite init_of_one_item by exact I.
  apply then_first_not_Done. intros [].
  apply call_not_Done.
  destruct depth as [|depth]; [discriminate|].
  cbn [_create_config_from_item]. apply call_not_Done.
  unfold _create_config_from_dict_with.
  apply then_not_Done. intros _ _ [].
  apply then_first_not_Done. intros [].
  apply (for_each_not_Done _ _ "elements" Hkey).
  intro self'. destruct (dict_get_key d "elements" Hkey) as [v ->].
  discriminate.
Qed.

End Construction.

(** X20: an attribute with the name of a method that the class calls on
    itself: the assignment stores the value and then raises [TypeError],
    and so does every later assignment. *)
Theorem attribute_that_hides_add_single_element
        (v : value) (self : Config) :
  v <> VLogger ->
  exists self',
    __setattr__ "add_single_element" v self = (Failed TypeError, self')
    /\ dict_get (attributes self') "add_single_element" = Some v
    /\ (forall name v',
           (name =? "elements")%string = false ->
           (name =? "_elements")%string = false ->
           special name = false ->
           name <> "add_single_element" ->
           fst (__setattr__ name v' self') = Failed TypeError).
Proof.
  intro Hv.
  exists (mkConfig (dict_set (attributes self) "add_single_element" v)
                   (_elements self)).
  assert (Hget : dict_get (dict_set (attributes self) "add_single_element" v)
                          "add_single_element" = Some v)
    by now rewrite dict_get_set.
  split; [|split; [exact Hget|]].
  - unfold __setattr__.
    erewrite then_Done by reflexivity.
    unfold call. cbn [attributes]. rewrite Hget.
    destruct v; try reflexivity. contradiction.
  - intros name v' He Hu Hs Hname.
    unfold __setattr__, then_, object_setattr, call.
    rewrite He, Hu, Hs. cbn [orb attributes fst].
    rewrite dict_get_set.
    destruct (String.eqb_spec name "add_single_element") as [->|_];
      [contradiction|].
    rewrite Hget. destruct v; try reflexivity. contradiction.
Qed.

(** ** The examples of the source *)

(** The examples in the documentation of [__delattr__] and
    [__setattr__]: the texts that printing gives after the construction,
    after the deletion of [another_thing], and after two assignments. *)
Example documented_texts :
  let made := snd (__init__ no_files quiet_logger 1 (VDict example_config)
                            (VMarker arg_not_supplied) new_instance) in
  let deleted := snd (__delattr__ "another_thing" made) in
  let assigned :=
    snd ((__setattr__ "another_thing" (VStr "test")
          ;;; __setattr__ "yet_another_thing" (VStr "more testing")) made) in
  fst (__repr__ made)
  = Done "Config with elements: another_thing, parameters"
  /\ fst (__repr__ deleted) = Done "Config with elements: parameters"
  /\ get_element_or_missing_data "another_thing" assigned
     = Done (VStr "test")
  /\ fst (__repr__ assigned)
     = Done "Config with elements: another_thing, parameters, yet_another_thing".
Proof. repeat split. Qed.

Lemma config_from_a_dict_witness :
  exists config,
    __init__ no_files quiet_logger 1 (VDict example_config)
             (VMarker arg_not_supplied) new_instance
    = (Done tt, config)
    /\ elements config = dict_keys example_config
    /\ (forall key v,
           dict_get example_config key = Some v ->
           get_element_or_missing_data key config = Done v)
    /\ exists d',
         as_dict config = Done d'
         /\ dict_keys d' = sorted (dict_keys example_config)
         /\ (forall key, dict_get d' key = dict_get example_config key).
Proof.
  apply (config_from_a_dict no_files quiet_logger 0 example_config
                            (VMarker arg_not_supplied)).
  repeat split; repeat constructor; cbn; intuition discriminate.
Defined.

Lemma later_dict_overrides_witness :
  exists config,
    __init__ no_files quiet_logger 1
             (VList [VDict example_config;
                     VDict [("forecast_cap", VNum (Num 22));
                            ("another_thing", VStr "test")]])
             (VMarker arg_not_supplied) new_instance
    = (Done tt, config)
    /\ elements config = ["parameters"; "another_thing"; "forecast_cap"]
    /\ dict_get (attributes config) "another_thing" = Some (VStr "test").
Proof.
  destruct (later_dict_overrides
              no_files quiet_logger 0 example_config
              [("forecast_cap", VNum (Num 22)); ("another_thing", VStr "test")]
              (VMarker arg_not_supplied))
    as (config & Hrun & Hels & Hget).
  - repeat split; repeat constructor; cbn; intuition discriminate.
  - repeat split; repeat constructor; cbn; intuition discriminate.
  - exists config. split; [exact Hrun|]. split; [exact Hels|].
    now rewrite Hget.
Defined.

Lemma base_config_is_read_first_witness :
  exists config,
    __init__ no_files quiet_logger 2
             (VDict [("base_config", VDict example_config);
                     ("another_thing", VStr "test")])
             (VMarker arg_not_supplied) new_instance
    = (Done tt, config)
    /\ elements config = ["parameters"; "another_thing"; "base_config"]
    /\ dict_get (attributes config) "another_thing" = Some (VStr "test")
    /\ dict_get (attributes config) "parameters"
       = dict_get example_config "parameters".
Proof.
  destruct (base_config_is_read_first
              no_files quiet_logger 0 example_config
              [("base_config", VDict example_config);
               ("another_thing", VStr "test")]
              (VMarker arg_not_supplied))
    as (config & Hrun & Hels & _ & Hget).
  - repeat split; repeat constructor; cbn; intuition discriminate.
  - repeat constructor; cbn; intuition discriminate.
  - repeat constructor.
  - repeat constructor.
  - reflexivity.
  - exists config. split; [exact Hrun|]. split; [exact Hels|].
    split; now rewrite Hget.
Defined.

Lemma file_that_is_its_own_base_witness :
  __init__ looping_file quiet_logger 1000 (VStr "looping.yaml")
           (VMarker arg_not_supplied) new_instance
  = (TooDeep, initial (VMarker arg_not_supplied)).
Proof.
  apply (file_that_is_its_own_base
           looping_file quiet_logger "looping.yaml"
           [("base_config", VStr "looping.yaml");
            ("forecast_cap", VNum (Num 22))]
           (VMarker arg_not_supplied));
    reflexivity.
Defined.

Lemma config_from_no_config_witness :
  __init__ no_files quiet_logger 1 (VNum (Num 5)) (VMarker arg_not_supplied)
           new_instance
  = (Done tt, initial (VMarker arg_not_supplied))
  /\ elements (initial (VMarker arg_not_supplied)) = [].
Proof.
  apply (config_from_no_config no_files quiet_logger 0 (VNum (Num 5))
                               (VMarker arg_not_supplied)).
  exact I.
Defined.

Lemma config_with_key_elements_fails_witness :
  fst (__init__ no_files quiet_logger 1
                (VDict [("forecast_cap", VNum (Num 22));
                        ("elements", VList [])])
                (VMarker arg_not_supplied) new_instance)
  <> Done tt.
Proof.
  apply (config_with_key_elements_fails
           no_files quiet_logger 1
           [("forecast_cap", VNum (Num 22)); ("elements", VList [])]
           (VMarker arg_not_supplied)).
  cbn. tauto.
Defined.

Lemma attribute_that_hides_add_single_element_witness :
  exists self',
    __setattr__ "add_single_element" (VNum (Num 1))
                (initial (VMarker arg_not_supplied))
    = (Failed TypeError, self')
    /\ dict_get (attributes self') "add_single_element" = Some (VNum (Num 1))
    /\ (forall name v',
           (name =? "elements")%string = false ->
           (name =? "_elements")%string = false ->
           special name = false ->
           name <> "add_single_element" ->
           fst (__setattr__ name v' self') = Failed TypeError).
Proof.
  apply (attribute_that_hides_add_single_element
           (VNum (Num 1)) (initial (VMarker arg_not_supplied))).
  discriminate.
Defined.
